(** * fabfile.py: template synchronisation and deployment steps

    A shallow embedding of [src/fabric/fabfile.py].  The Python functions
    [get_templates], [upload_template_and_reload], [restart], [deploy] and
    [rollback] become functions in a state-and-exception monad over a
    [world]: Fabric's global [env], the local files, the remote files, the
    remote checkout and the list of operations handed to Fabric. *)

From Stdlib Require Import String Ascii List Bool Arith Lia.
From stdpp Require Import base option gmap strings.
Import ListNotations.

Local Open Scope string_scope.

(** ** Python strings *)

Definition LF : ascii := ascii_of_nat 10.
Definition CR : ascii := ascii_of_nat 13.

(** [str.isspace] on one byte in the C locale: space, and \t \n \v \f \r. *)
Definition isspace (c : ascii) : bool :=
  let n := nat_of_ascii c in
  Nat.eqb n 32 || (Nat.leb 9 n && Nat.leb n 13).

(** [s.replace(old, new)] for a one-character [old]. *)
Fixpoint replace1 (old : ascii) (new : string) (s : string) : string :=
  match s with
  | EmptyString => EmptyString
  | String c r =>
      if Ascii.eqb c old then new ++ replace1 old new r
      else String c (replace1 old new r)
  end.

Definition is_empty (s : string) : bool :=
  match s with EmptyString => true | String _ _ => false end.

Fixpoint lstrip (s : string) : string :=
  match s with
  | EmptyString => EmptyString
  | String c r => if isspace c then lstrip r else s
  end.

Fixpoint rstrip (s : string) : string :=
  match s with
  | EmptyString => EmptyString
  | String c r =>
      let r' := rstrip r in
      if isspace c && is_empty r' then EmptyString else String c r'
  end.

(** [s.strip()] *)
Definition strip (s : string) : string := rstrip (lstrip s).

(** [pat in s] *)
Fixpoint contains (pat s : string) : bool :=
  String.prefix pat s ||
  match s with
  | EmptyString => false
  | String _ r => contains pat r
  end.

(** line 155: [clean = lambda s: s.replace("\n", "").replace("\r", "").strip()] *)
Definition clean (s : string) : string :=
  strip (replace1 CR "" (replace1 LF "" s)).

(** The normalisation as the specification words it: delete every line
    break character, then trim the white space at both ends. *)
Definition is_linebreak (c : ascii) : bool := Ascii.eqb c LF || Ascii.eqb c CR.

Fixpoint drop_while (p : ascii -> bool) (l : list ascii) : list ascii :=
  match l with
  | [] => []
  | c :: r => if p c then drop_while p r else l
  end.

Definition trim (l : list ascii) : list ascii :=
  rev (drop_while isspace (rev (drop_while isspace l))).

Definition normalize (s : string) : string :=
  string_of_list_ascii
    (trim (List.filter (fun c => negb (is_linebreak c)) (list_ascii_of_string s))).

(** ** Exceptions and outcomes *)

(** What a task asks of Fabric on the remote host, and of [db_pass], in
    the order asked. *)
Inductive event : Type :=
| EExists (path : string)                (* fabric.contrib.files.exists *)
| ESudo (cmd : string)                   (* fabric.api.sudo *)
| ERun (cwd : string) (cmd : string)     (* fabric.api.run inside cd(cwd) *)
| EUpload (path : string) (text : string)(* upload_template's put *)
| EDbPass.                               (* line 153 reached: db_pass is looked up and called *)

Inductive exn : Type :=
| KeyError (k : string)
| AttributeError (k : string)
| ValueError (msg : string)
| IOError (path : string)
| NameError (name : string)
| SystemExit (op : event)     (* Fabric aborts on a failed remote operation *)
| NotModelled.                (* a format directive this development does not refine *)

Inductive outcome (A : Type) : Type :=
| Ok (a : A)
| Raise (e : exn).
Arguments Ok {A} a.
Arguments Raise {A} e.

(** ** The [%] operator with a mapping on the right

    [fmt % env] for a [str] format and the mapping [env], after
    CPython 2's [PyString_Format].  Refined here: literal text, [%%],
    [%(key)s] and [%(key)%], the balanced-parenthesis scan of the key, the
    [KeyError] of a missing key and the [ValueError] of a format that ends
    inside a directive.  Flags, widths, precisions, positional directives
    and conversions other than [s] are answered [NotModelled]. *)

Inductive fmt_state : Type :=
| Text                                (* copying literal characters *)
| Percent                             (* just after a '%' *)
| InKey (depth : nat) (key : string)  (* inside "%(", [depth] nested '(' open *)
| Conv (v : string).                  (* key looked up, conversion expected *)

Definition snoc (s : string) (c : ascii) : string := s ++ String c EmptyString.

Fixpoint fmt_go (e : gmap string string) (st : fmt_state) (out : string)
         (s : string) : outcome string :=
  match s with
  | EmptyString =>
      match st with
      | Text => Ok out
      | InKey _ _ => Raise (ValueError "incomplete format key")
      | Percent | Conv _ => Raise (ValueError "incomplete format")
      end
  | String c r =>
      match st with
      | Text =>
          if Ascii.eqb c "%" then fmt_go e Percent out r
          else fmt_go e Text (snoc out c) r
      | Percent =>
          if Ascii.eqb c "(" then fmt_go e (InKey 0 "") out r
          else if Ascii.eqb c "%" then fmt_go e Text (snoc out "%") r
          else Raise NotModelled
      | InKey d k =>
          if Ascii.eqb c ")" then
            match d with
            | 0 => match e !! k with
                   | Some v => fmt_go e (Conv v) out r
                   | None => Raise (KeyError k)
                   end
            | S d' => fmt_go e (InKey d' (snoc k c)) out r
            end
          else if Ascii.eqb c "(" then fmt_go e (InKey (S d) (snoc k c)) out r
          else fmt_go e (InKey d (snoc k c)) out r
      | Conv v =>
          if Ascii.eqb c "s" then fmt_go e Text (out ++ v) r
          else if Ascii.eqb c "%" then fmt_go e Text (snoc out "%") r
          else Raise NotModelled
      end
  end.

Definition py_format (fmt : string) (e : gmap string string) : outcome string :=
  fmt_go e Text "" fmt.

(** Templates as the specification sees them: literal text, [%(key)s]
    placeholders and the escape [%%]. *)
Inductive segment : Type :=
| Lit (text : string)
| Placeholder (key : string)
| Escaped.

Fixpoint has_char (c : ascii) (s : string) : bool :=
  match s with
  | EmptyString => false
  | String a r => Ascii.eqb a c || has_char c r
  end.

(** Literal text has no '%'; a key has no parenthesis. *)
Definition segment_ok (x : segment) : bool :=
  match x with
  | Lit t => negb (has_char "%" t)
  | Placeholder k => negb (has_char "(" k) && negb (has_char ")" k)
  | Escaped => true
  end.

Definition well_formed (segs : list segment) : bool := forallb segment_ok segs.

(** The text of a template. *)
Fixpoint unparse (segs : list segment) : string :=
  match segs with
  | [] => ""
  | Lit t :: r => t ++ unparse r
  | Placeholder k :: r => "%(" ++ k ++ ")s" ++ unparse r
  | Escaped :: r => "%%" ++ unparse r
  end.

(** The first placeholder, left to right, whose key [e] does not hold. *)
Fixpoint first_missing (segs : list segment) (e : gmap string string)
  : option string :=
  match segs with
  | [] => None
  | Placeholder k :: r =>
      match e !! k with
      | Some _ => first_missing r e
      | None => Some k
      end
  | _ :: r => first_missing r e
  end.

(** Every placeholder replaced by the value of its key. *)
Fixpoint fill (segs : list segment) (e : gmap string string) : string :=
  match segs with
  | [] => ""
  | Lit t :: r => t ++ fill r e
  | Placeholder k :: r => default "" (e !! k) ++ fill r e
  | Escaped :: r => "%" ++ fill r e
  end.

(** Substitution as the specification words it. *)
Definition substitute (segs : list segment) (e : gmap string string)
  : outcome string :=
  match first_missing segs e with
  | Some k => Raise (KeyError k)
  | None => Ok (fill segs e)
  end.

(** ** The world *)

(** Python values returned by the tasks. *)
Inductive value : Type :=
| VNone
| VBool (b : bool).

(** [env] holds, for each variable, the text [%s] prints for it.
    [local_fs] and [remote_fs] map a path to the content of the file there.
    [repo_head] is the revision checked out in the remote project directory
    and [repo_origin] the tip of [origin master].  [refuses] tells which
    remote operations end with a failure, on which Fabric aborts.  [trace]
    lists the operations asked so far, oldest first. *)
Record world : Type := World {
  env : gmap string string;
  local_fs : gmap string string;
  remote_fs : gmap string string;
  repo_head : string;
  repo_origin : string;
  refuses : event -> bool;
  trace : list event
}.

Definition with_env (w : world) (e : gmap string string) : world :=
  World e (local_fs w) (remote_fs w) (repo_head w) (repo_origin w)
        (refuses w) (trace w).
Definition with_remote_fs (w : world) (fs : gmap string string) : world :=
  World (env w) (local_fs w) fs (repo_head w) (repo_origin w)
        (refuses w) (trace w).
Definition with_repo_head (w : world) (h : string) : world :=
  World (env w) (local_fs w) (remote_fs w) h (repo_origin w)
        (refuses w) (trace w).
Definition with_trace (w : world) (t : list event) : world :=
  World (env w) (local_fs w) (remote_fs w) (repo_head w) (repo_origin w)
        (refuses w) t.

(** ** State and exception monad *)

Definition M (A : Type) : Type := world -> outcome A * world.

Definition ret {A : Type} (a : A) : M A := fun w => (Ok a, w).
Definition raise {A : Type} (e : exn) : M A := fun w => (Raise e, w).
Definition bind {A B : Type} (m : M A) (k : A -> M B) : M B :=
  fun w =>
    match m w with
    | (Ok a, w') => k a w'
    | (Raise e, w') => (Raise e, w')
    end.
Definition lift {A : Type} (o : outcome A) : M A := fun w => (o, w).

Notation "'let!' x ':=' c 'in' k" := (bind c (fun x => k))
  (at level 10, x name, c at level 100, k at level 200,
   format "'[v' 'let!'  x  ':='  c  'in' '/' k ']'").

Definition get_env : M (gmap string string) := fun w => (Ok (env w), w).

(** [env.name] *)
Definition getattr (name : string) : M string :=
  fun w =>
    match env w !! name with
    | Some v => (Ok v, w)
    | None => (Raise (AttributeError name), w)
    end.

(** [env.name = v] *)
Definition setattr (name v : string) : M unit :=
  fun w => (Ok tt, with_env w (<[name := v]> (env w))).

Definition emit (ev : event) : M unit :=
  fun w => (Ok tt, with_trace w (trace w ++ [ev])).

(** Ask Fabric for [ev]; a refused operation aborts the run. *)
Definition attempt (ev : event) : M unit :=
  let! _ := emit ev in
  fun w => if refuses w ev then (Raise (SystemExit ev), w) else (Ok tt, w).

(** ** The remote executor (Fabric)

    The remote host is outside the repository.  Of the shell commands the
    fabfile issues, the model gives a meaning to [cat path] (its output is
    the content of the file) and to the three git commands of [deploy] and
    [rollback]; every other command prints nothing and changes nothing in
    the modelled state. *)

Definition cat_target (cmd : string) : option string :=
  if String.prefix "cat " cmd
  then Some (String.substring 4 (String.length cmd - 4) cmd)
  else None.

Definition shell_output (fs : gmap string string) (cmd : string) : string :=
  match cat_target cmd with
  | Some p => default "" (fs !! p)
  | None => ""
  end.

Definition last_commit (cwd : string) : string := cwd ++ "/last.commit".

Definition shell_effect (cwd cmd : string) (w : world) : world :=
  if String.eqb cmd "git rev-parse HEAD > last.commit" then
    with_remote_fs w (<[last_commit cwd := repo_head w]> (remote_fs w))
  else if String.eqb cmd "git pull origin master" then
    with_repo_head w (repo_origin w)
  else if String.eqb cmd "git checkout `cat last.commit`" then
    match remote_fs w !! last_commit cwd with
    | Some rev => with_repo_head w rev
    | None => w
    end
  else w.

(** [exists(path)] *)
Definition exists_ (path : string) : M bool :=
  let! _ := emit (EExists path) in
  fun w => (Ok (match remote_fs w !! path with Some _ => true | None => false end), w).

(** [sudo(command)] (lines 105-113; the printing is left out) *)
Definition sudo (command : string) : M string :=
  let! _ := attempt (ESudo command) in
  fun w => (Ok (shell_output (remote_fs w) command), w).

(** [run(command)] inside [with cd(cwd)] (lines 94-102) *)
Definition run (cwd command : string) : M string :=
  let! _ := attempt (ERun cwd command) in
  fun w => (Ok "", shell_effect cwd command w).

(** [open(path, "r").read()] *)
Definition read_local (path : string) : M string :=
  fun w =>
    match local_fs w !! path with
    | Some s => (Ok s, w)
    | None => (Raise (IOError path), w)
    end.

(** Fabric's [upload_template(filename, destination, env, use_sudo=True,
    backup=False)]: read the local file again, render it with [% env] and
    put the text at [destination].  ([env] is never the empty mapping:
    lines 30-40 assign ten of its entries.) *)
Definition upload_template (filename destination : string) : M unit :=
  let! text := read_local filename in
  let! e := get_env in
  let! text := lift (py_format text e) in
  let! _ := attempt (EUpload destination text) in
  fun w => (Ok tt, with_remote_fs w (<[destination := text]> (remote_fs w))).

(** ** Dictionaries in iteration order *)

Definition dict : Type := list (string * string).

Fixpoint dict_get {V : Type} (d : list (string * V)) (k : string) : option V :=
  match d with
  | [] => None
  | (k', v) :: d' => if String.eqb k' k then Some v else dict_get d' k
  end.

(** [d[k]] *)
Definition getitem {V : Type} (d : list (string * V)) (k : string) : outcome V :=
  match dict_get d k with
  | Some v => Ok v
  | None => Raise (KeyError k)
  end.

(** [if x:] for [x = d.get(k)]: [None] and the empty string are false. *)
Definition truthy (x : option string) : bool :=
  match x with
  | Some (String _ _) => true
  | _ => false
  end.

(** lines 51-62, in source order.  The functions below take the registry as
    an argument, read in the order in which Python iterates over it; the
    keys of a dictionary are distinct. *)
Definition templates : list (string * dict) :=
  [ ("nginx",
     [ ("local_path", "deploy/nginx.conf");
       ("remote_path", "/etc/nginx/sites-enabled/%(live_host)s.conf");
       ("reload_command", "service nginx restart") ]);
    ("supervisor",
     [ ("local_path", "deploy/supervisor.conf");
       ("remote_path", "/etc/supervisor/conf.d/%(proj_name)s.conf");
       ("reload_command", "supervisorctl reload") ]) ].

(** line 131: [dict([(k, v % env) for k, v in data.items()])] *)
Fixpoint inject (e : gmap string string) (data : dict) : outcome dict :=
  match data with
  | [] => Ok []
  | (k, v) :: rest =>
      match py_format v e with
      | Raise x => Raise x
      | Ok v' =>
          match inject e rest with
          | Raise x => Raise x
          | Ok rest' => Ok ((k, v') :: rest')
          end
      end
  end.

(** lines 129-132, as a function of the registry and [env] *)
Fixpoint inject_all (e : gmap string string) (reg : list (string * dict))
  : outcome (list (string * dict)) :=
  match reg with
  | [] => Ok []
  | (name, data) :: rest =>
      match inject e data with
      | Raise x => Raise x
      | Ok data' =>
          match inject_all e rest with
          | Raise x => Raise x
          | Ok rest' => Ok ((name, data') :: rest')
          end
      end
  end.

(** The local variables of lines 141-145. *)
Record resolved : Type := Resolved {
  local_path : string;
  remote_path : string;
  reload_command : option string;
  owner : option string;
  mode : option string
}.

(** lines 140-145, as a function of [env] *)
Definition resolve (reg : list (string * dict)) (e : gmap string string)
           (name : string) : outcome resolved :=
  match inject_all e reg with
  | Raise x => Raise x
  | Ok injected =>
      match getitem injected name with
      | Raise x => Raise x
      | Ok template =>
          match getitem template "local_path" with
          | Raise x => Raise x
          | Ok lp =>
              match getitem template "remote_path" with
              | Raise x => Raise x
              | Ok rp =>
                  Ok (Resolved lp rp (dict_get template "reload_command")
                               (dict_get template "owner")
                               (dict_get template "mode"))
              end
          end
      end
  end.

(** The local variables alive at line 155. *)
Record gathered : Type := Gathered {
  template : resolved;
  remote_data : string;
  local_data : string
}.

Definition chown_command (o path : string) : string := "chown " ++ o ++ " " ++ path.
Definition chmod_command (m path : string) : string := "chmod " ++ m ++ " " ++ path.
Definition cat_command (path : string) : string := "cat " ++ path.

Section Fabfile.

(** The template registry (line 51). *)
Variable registry : list (string * dict).

(** [db_pass], called at line 153, is defined nowhere in the fabfile: it is
    a parameter here, any computation over [env] that returns a string or
    raises.  (With the fabfile alone the name is unbound, which is the
    instance [unbound_db_pass] below.) *)
Variable db_pass : gmap string string -> outcome string * gmap string string.

(** line 125 *)
Definition get_templates : M (list (string * dict)) :=
  fun w => (inject_all (env w) registry, w).

(** line 153, right-hand side: [EDbPass] records that the line is reached;
    what the call gives, if anything, is [db_pass]'s to say. *)
Definition call_db_pass : M string :=
  let! _ := emit EDbPass in
  fun w => let (r, e) := db_pass (env w) in (r, with_env w e).

(** lines 140-154: everything up to the comparison *)
Definition gather (name : string) : M gathered :=
  let! t := (fun w => (resolve registry (env w) name, w)) in
  let! present := exists_ (remote_path t) in
  let! remote_data :=
    (if present then sudo (cat_command (remote_path t)) else ret "") in
  let! raw := read_local (local_path t) in
  let! _ :=
    (if contains "%(db_pass)s" raw
     then let! p := call_db_pass in setattr "db_pass" p
     else ret tt) in
  let! e := get_env in
  let! local_data := lift (py_format raw e) in
  ret (Gathered t remote_data local_data).

(** lines 155-164: compare, then upload, chown, chmod and reload *)
Definition act (g : gathered) : M value :=
  let t := template g in
  if String.eqb (clean (remote_data g)) (clean (local_data g)) then ret VNone
  else
    let! _ := upload_template (local_path t) (remote_path t) in
    let! _ :=
      (if truthy (owner t)
       then sudo (chown_command (default "" (owner t)) (remote_path t))
       else ret "") in
    let! _ :=
      (if truthy (mode t)
       then sudo (chmod_command (default "" (mode t)) (remote_path t))
       else ret "") in
    let! _ :=
      (if truthy (reload_command t)
       then sudo (default "" (reload_command t))
       else ret "") in
    ret VNone.

(** line 135 *)
Definition upload_template_and_reload (name : string) : M value :=
  let! g := gather name in
  act g.

(** line 224 *)
Definition restart : M value :=
  let pid_path := "/var/run/nginx.pid" in
  let! present := exists_ pid_path in
  if present then
    let! _ := sudo ("kill -HUP `cat " ++ pid_path ++ "`") in
    ret VNone
  else
    let! proj_name := getattr "proj_name" in
    let! _ := sudo ("supervisorctl start " ++ proj_name ++ ":nginx") in
    ret VNone.

Fixpoint for_each (names : list string) (body : string -> M value) : M unit :=
  match names with
  | [] => ret tt
  | name :: rest =>
      let! _ := body name in
      for_each rest body
  end.

(** line 237 *)
Definition deploy : M value :=
  let! injected := get_templates in
  let! _ := for_each (map fst injected) upload_template_and_reload in
  let! proj_path := getattr "proj_path" in
  let! _ := run proj_path "git rev-parse HEAD > last.commit" in
  let! _ := run proj_path "git pull origin master" in
  let! _ := restart in
  ret (VBool true).

(** line 253 *)
Definition rollback : M value :=
  let! proj_path := getattr "proj_path" in
  let! _ := run proj_path "git checkout `cat last.commit`" in
  let! _ := restart in
  ret VNone.

(** Lines 152-153 as a function of [env]. *)
Definition derive_secret (raw : string) (e : gmap string string)
  : outcome (gmap string string) :=
  if contains "%(db_pass)s" raw then
    match db_pass e with
    | (Ok v, e') => Ok (<["db_pass" := v]> e')
    | (Raise x, _) => Raise x
    end
  else Ok e.

(** [db_pass] has been derived and stored: asking again gives the stored
    text and leaves [env] alone. *)
Definition secret_settled (e : gmap string string) : Prop :=
  exists v, e !! "db_pass" = Some v /\ db_pass e = (Ok v, e).

End Fabfile.

(** A registry given by the parsed patterns of its values, with its text,
    the first placeholder without a key in the order in which
    [get_templates] formats the values, and the registry with every
    placeholder replaced. *)
Definition unparse_fields (fields : list (string * list segment)) : dict :=
  map (fun kv => (fst kv, unparse (snd kv))) fields.
Definition unparse_registry (preg : list (string * list (string * list segment)))
  : list (string * dict) :=
  map (fun nd => (fst nd, unparse_fields (snd nd))) preg.

Definition fill_fields (fields : list (string * list segment))
           (e : gmap string string) : dict :=
  map (fun kv => (fst kv, fill (snd kv) e)) fields.
Definition fill_registry (preg : list (string * list (string * list segment)))
           (e : gmap string string) : list (string * dict) :=
  map (fun nd => (fst nd, fill_fields (snd nd) e)) preg.

Fixpoint first_missing_fields (fields : list (string * list segment))
         (e : gmap string string) : option string :=
  match fields with
  | [] => None
  | (_, segs) :: rest =>
      match first_missing segs e with
      | Some k => Some k
      | None => first_missing_fields rest e
      end
  end.
Fixpoint first_missing_registry
         (preg : list (string * list (string * list segment)))
         (e : gmap string string) : option string :=
  match preg with
  | [] => None
  | (_, fields) :: rest =>
      match first_missing_fields fields e with
      | Some k => Some k
      | None => first_missing_registry rest e
      end
  end.

Definition well_formed_fields (fields : list (string * list segment)) : bool :=
  forallb (fun kv => well_formed (snd kv)) fields.
Definition well_formed_registry
           (preg : list (string * list (string * list segment))) : bool :=
  forallb (fun nd => well_formed_fields (snd nd)) preg.

(** Lines 140-145 on a registry that is already injected. *)
Definition pick (injected : list (string * dict)) (name : string)
  : outcome resolved :=
  match getitem injected name with
  | Raise x => Raise x
  | Ok template =>
      match getitem template "local_path" with
      | Raise x => Raise x
      | Ok lp =>
          match getitem template "remote_path" with
          | Raise x => Raise x
          | Ok rp =>
              Ok (Resolved lp rp (dict_get template "reload_command")
                           (dict_get template "owner")
                           (dict_get template "mode"))
          end
      end
  end.

(** The registry of lines 51-62, parsed. *)
Definition templates_parsed : list (string * list (string * list segment)) :=
  [ ("nginx",
     [ ("local_path", [Lit "deploy/nginx.conf"]);
       ("remote_path",
        [Lit "/etc/nginx/sites-enabled/"; Placeholder "live_host"; Lit ".conf"]);
       ("reload_command", [Lit "service nginx restart"]) ]);
    ("supervisor",
     [ ("local_path", [Lit "deploy/supervisor.conf"]);
       ("remote_path",
        [Lit "/etc/supervisor/conf.d/"; Placeholder "proj_name"; Lit ".conf"]);
       ("reload_command", [Lit "supervisorctl reload"]) ]) ].

(** The calls of line 243 one after the other: the call for each name
    completes, returns [None] and hands its state to the call for the next
    name; [ws] is the state after the last one. *)
Fixpoint synced_in_turn (registry : list (string * dict))
         (db_pass : gmap string string -> outcome string * gmap string string)
         (names : list string) (w ws : world) : Prop :=
  match names with
  | [] => ws = w
  | name :: rest =>
      exists w1,
        upload_template_and_reload registry db_pass name w = (Ok VNone, w1) /\
        synced_in_turn registry db_pass rest w1 ws
  end.

(** ** The other tasks *)

Definition rm_command (path : string) : string := "rm " ++ path.

(** line 168 *)
Definition apt (packages : string) : M string :=
  sudo ("apt-get install -y -q " ++ packages).

(** line 181.  A [run] outside any [cd] has the empty working directory. *)
Definition install : M value :=
  let! loc := getattr "locale" in
  let locale := "LC_ALL=" ++ loc in
  let! current := sudo "cat /etc/default/locale" in
  let! _ :=
    (if negb (contains locale current)
     then let! _ := sudo ("update-locale " ++ locale) in
          let! _ := run "" "exit" in
          ret tt
     else ret tt) in
  let! _ := sudo "apt-get update -y -q" in
  let! _ := apt "nginx supervisor git-core" in
  ret (VBool true).

(** line 197 *)
Definition create : M value :=
  let! repo_url := getattr "repo_url" in
  let! proj_path := getattr "proj_path" in
  let! _ := run "" ("git clone " ++ repo_url ++ " " ++ proj_path) in
  ret (VBool true).

(** lines 212-215: the loop over the injected descriptors *)
Fixpoint remove_each (descriptors : list dict) : M unit :=
  match descriptors with
  | [] => ret tt
  | template :: rest =>
      let! remote_path := lift (getitem template "remote_path") in
      let! present := exists_ remote_path in
      let! _ := (if present then sudo (rm_command remote_path) else ret "") in
      remove_each rest
  end.

(** line 208 *)
Definition remove (registry : list (string * dict)) : M value :=
  let! injected := get_templates registry in
  let! _ := remove_each (map snd injected) in
  ret VNone.

(** [if v:] for a returned value *)
Definition value_true (v : value) : bool :=
  match v with
  | VBool true => true
  | _ => false
  end.

(** line 268 *)
Definition all_ (registry : list (string * dict))
           (db_pass : gmap string string -> outcome string * gmap string string)
  : M value :=
  let! _ := install in
  let! created := create in
  if value_true created
  then let! _ := deploy registry db_pass in ret VNone
  else ret VNone.

(** ** Configuration (lines 17-40) *)

(** The [FABRIC] dictionary of the settings module: each key is absent or
    holds a string, [HOSTS] a list of strings. *)
Record settings : Type := Settings {
  ADMIN_PASS : option string;
  SSH_USER : option string;
  SSH_PASS : option string;
  SSH_KEY_PATH : option string;
  HOSTS : option (list string);
  PROJECT_NAME : option string;
  LIVE_HOSTNAME : option string;
  REPO_URL : option string;
  LOCALE : option string
}.

(** line 17: [conf = {}] *)
Definition no_settings : settings :=
  Settings None None None None None None None None None.

(** [s.split(os.sep)[-1]]: what follows the last '/'. *)
Fixpoint after_last_sep (acc s : string) : string :=
  match s with
  | EmptyString => acc
  | String c r =>
      if Ascii.eqb c "/" then after_last_sep "" r
      else after_last_sep (snoc acc c) r
  end.

Definition last_component (s : string) : string := after_last_sep "" s.

(** The exceptions that lines 20-25 can raise: [ImportError] (no settings
    module, or line 25), [AttributeError] (no [FABRIC] in the module),
    [KeyError] (no "HOSTS" in the dictionary) and [IndexError] (an empty
    [HOSTS] list). *)
Inductive boot_exn : Type :=
| ImportError
| MissingAttribute
| MissingKey
| IndexError.

(** How lines 18-28 end: with [conf] loaded, with the message "Aborting, no
    hosts defined." and [exit()], or with an exception that leaves the
    [try] statement of line 20. *)
Inductive startup : Type :=
| Loaded (conf : settings)
| Aborted
| Uncaught (x : boot_exn).

(** line 21: [__import__("settings", ...).FABRIC].  [module] is [None] when
    there is no settings module, [Some None] when it has no [FABRIC]
    attribute. *)
Definition import_fabric (module : option (option settings))
  : boot_exn + settings :=
  match module with
  | None => inl ImportError
  | Some None => inl MissingAttribute
  | Some (Some conf) => inr conf
  end.

(** line 23: [conf["HOSTS"][0]] *)
Definition first_host (conf : settings) : boot_exn + string :=
  match HOSTS conf with
  | None => inl MissingKey
  | Some [] => inl IndexError
  | Some (h :: _) => inr h
  end.

(** line 24: [except (KeyError, ValueError)] *)
Definition inner_except (x : boot_exn) : bool :=
  match x with
  | MissingKey => true
  | _ => false
  end.

(** line 26: [except (ImportError, AttributeError)] *)
Definition outer_except (x : boot_exn) : bool :=
  match x with
  | ImportError | MissingAttribute => true
  | _ => false
  end.

(** lines 22-25: the inner [try]; its handler raises [ImportError]. *)
Definition check_hosts (conf : settings) : boot_exn + unit :=
  match first_host conf with
  | inr _ => inr tt
  | inl x => if inner_except x then inl ImportError else inl x
  end.

(** lines 20-28: the outer [try]; line 21 has bound [conf] when line 23 is
    reached. *)
Definition guarded_import (module : option (option settings)) : startup :=
  let body :=
    match import_fabric module with
    | inl x => inl x
    | inr conf =>
        match check_hosts conf with
        | inl x => inl x
        | inr _ => inr conf
        end
    end in
  match body with
  | inr conf => Loaded conf
  | inl x => if outer_except x then Aborted else Uncaught x
  end.

(** lines 17-28 *)
Definition load_conf (argv0 : string) (module : option (option settings))
  : startup :=
  if String.eqb (last_component argv0) "fab" then guarded_import module
  else Loaded no_settings.

(** The text of an optional setting that defaults to [None]. *)
Definition text_or_none (x : option string) : string := default "None" x.

(** line 38: [conf.get("LIVE_HOSTNAME", env.hosts[0] if env.hosts else None)] *)
Definition live_host_text (conf : settings) : string :=
  match LIVE_HOSTNAME conf with
  | Some h => h
  | None =>
      match default [] (HOSTS conf) with
      | h :: _ => h
      | [] => "None"
      end
  end.

(** lines 30-40, on top of Fabric's own [env].  [login] is [getuser()],
    [cwd] is [os.getcwd()] and [hosts_text] the text of a list of hosts,
    which is not refined here. *)
Definition configure (hosts_text : list string -> string) (conf : settings)
           (login cwd : string) (base : gmap string string)
  : gmap string string :=
  let e1 := <["admin_pass" := text_or_none (ADMIN_PASS conf)]> base in
  let e2 := <["user" := default login (SSH_USER conf)]> e1 in
  let e3 := <["password" := text_or_none (SSH_PASS conf)]> e2 in
  let e4 := <["key_filename" := text_or_none (SSH_KEY_PATH conf)]> e3 in
  let e5 := <["hosts" := hosts_text (default [] (HOSTS conf))]> e4 in
  let e6 := <["proj_name" := default (last_component cwd) (PROJECT_NAME conf)]> e5 in
  let e7 := <["proj_path" := "/home/" ++ default "" (e6 !! "user") ++ "/"
                                      ++ default "" (e6 !! "proj_name")]> e6 in
  let e8 := <["live_host" := live_host_text conf]> e7 in
  let e9 := <["repo_url" := text_or_none (REPO_URL conf)]> e8 in
  <["locale" := default "en_US.UTF-8" (LOCALE conf)]> e9.

(** The remote paths of the descriptors, in order. *)
Fixpoint remote_paths (descriptors : list dict) : list string :=
  match descriptors with
  | [] => []
  | template :: rest =>
      match dict_get template "remote_path" with
      | Some p => p :: remote_paths rest
      | None => remote_paths rest
      end
  end.

(** The operations of [remove] on the injected descriptors. *)
Fixpoint remove_ops (fs : gmap string string) (descriptors : list dict)
  : list event :=
  match descriptors with
  | [] => []
  | template :: rest =>
      match dict_get template "remote_path" with
      | Some p =>
          (EExists p ::
           match fs !! p with
           | Some _ => [ESudo (rm_command p)]
           | None => []
           end) ++ remove_ops fs rest
      | None => []
      end
  end.

(** Run from [w], the computation asks the host only for operations that
    satisfy [Q]: what it appends to the trace, however it ends. *)
Definition asks_at {A : Type} (Q : event -> Prop) (m : M A) (w : world) : Prop :=
  exists asked,
    trace (snd (m w)) = (trace w ++ asked)%list /\ Forall Q asked.

(** A computation is confined to the remote paths in [P] when, however it
    ends, it leaves the local files, the checkout, the temper of the host
    and every remote file outside [P] as they were. *)
Definition confined {A : Type} (P : string -> Prop) (m : M A) : Prop :=
  forall w,
    local_fs (snd (m w)) = local_fs w /\
    repo_head (snd (m w)) = repo_head w /\
    repo_origin (snd (m w)) = repo_origin w /\
    refuses (snd (m w)) = refuses w /\
    forall q, ~ P q -> remote_fs (snd (m w)) !! q = remote_fs w !! q.

(** No value of the descriptor, or of the registry, has a '%'. *)
Definition plain_dict (d : dict) : bool :=
  forallb (fun kv => negb (has_char "%" (snd kv))) d.
Definition plain_registry (reg : list (string * dict)) : bool :=
  forallb (fun nd => plain_dict (snd nd)) reg.

(** ** What a call asks of the remote host *)

(** The reads of lines 147-149. *)
Definition probe_ops (fs : gmap string string) (path : string) : list event :=
  EExists path ::
  match fs !! path with
  | Some _ => [ESudo (cat_command path)]
  | None => []
  end.

(** The call of line 153. *)
Definition secret_ops (raw : string) : list event :=
  if contains "%(db_pass)s" raw then [EDbPass] else [].

Definition owner_ops (t : resolved) : list event :=
  if truthy (owner t)
  then [ESudo (chown_command (default "" (owner t)) (remote_path t))] else [].
Definition mode_ops (t : resolved) : list event :=
  if truthy (mode t)
  then [ESudo (chmod_command (default "" (mode t)) (remote_path t))] else [].
Definition reload_ops (t : resolved) : list event :=
  if truthy (reload_command t) then [ESudo (default "" (reload_command t))] else [].

(** The operations of lines 158-164, in order. *)
Definition changes (g : gathered) : list event :=
  EUpload (remote_path (template g)) (local_data g) ::
  owner_ops (template g) ++ mode_ops (template g) ++ reload_ops (template g).

(** The operations of [restart] (line 224), given the remote files and
    [env] at that moment. *)
Definition restart_ops (fs e : gmap string string) : list event :=
  [ EExists "/var/run/nginx.pid";
    ESudo (match fs !! "/var/run/nginx.pid" with
           | Some _ => "kill -HUP `cat /var/run/nginx.pid`"
           | None => "supervisorctl start " ++ default "" (e !! "proj_name")
                                            ++ ":nginx"
           end) ].

(** Ask for the operations in turn, up to the first one refused: the
    operations asked, and the refused one if any. *)
Fixpoint attempt_all (refuses : event -> bool) (ops : list event)
  : list event * option event :=
  match ops with
  | [] => ([], None)
  | ev :: rest =>
      if refuses ev then ([ev], Some ev)
      else let (asked, bad) := attempt_all refuses rest in (ev :: asked, bad)
  end.

(** ** Concrete hosts and registries *)

Definition site_env : gmap string string :=
  {[ "user" := "deploy"; "proj_name" := "blog";
     "proj_path" := "/home/deploy/blog"; "live_host" := "example.org";
     "locale" := "en_US.UTF-8" ]}.

Definition site_files : gmap string string :=
  {[ "deploy/nginx.conf" := "server_name %(live_host)s;";
     "deploy/supervisor.conf" := "[program:%(proj_name)s]";
     "deploy/app.conf" := "host=%(live_host)s password=%(db_pass)s" ]}.

(** A remote host on which every operation succeeds. *)
Definition willing : event -> bool := fun _ => false.

(** A host that has never been deployed to. *)
Definition fresh_host : world :=
  World site_env site_files ∅ "rev1" "rev2" willing [].

(** A registry entry with an owner and a mode. *)
Definition secured : list (string * dict) :=
  [ ("app",
     [ ("local_path", "deploy/app.conf");
       ("remote_path", "/srv/%(proj_name)s/app.conf");
       ("reload_command", "service app reload");
       ("owner", "www-data");
       ("mode", "640") ]) ].

(** A [db_pass] that answers the same secret every time. *)
Definition fixed_db_pass (e : gmap string string)
  : outcome string * gmap string string := (Ok "s3cret", e).

(** [db_pass] as the fabfile alone leaves it: an unbound name. *)
Definition unbound_db_pass (e : gmap string string)
  : outcome string * gmap string string := (Raise (NameError "db_pass"), e).

Definition nginx_path : string := "/etc/nginx/sites-enabled/example.org.conf".
Definition app_path : string := "/srv/blog/app.conf".

Definition two_lines (sep : string) : string :=
  "server_name example.org;" ++ sep ++ "listen 80;".

Definition lf : string := String LF "".
Definition crlf : string := String CR (String LF "").

(** The nginx template has two lines; [remote] is what the host holds at
    the nginx path. *)
Definition nginx_host (remote : option string) : world :=
  World site_env
        (<["deploy/nginx.conf" := "server_name %(live_host)s;" ++ lf ++ "listen 80;"]>
           site_files)
        (match remote with
         | Some text => {[ nginx_path := text ]}
         | None => ∅
         end)
        "rev1" "rev2" willing [].

(** The same lines with CR LF line ends on the host. *)
Definition crlf_host : world := nginx_host (Some (two_lines crlf)).
(** An older, one-line file on the host. *)
Definition drifted_host : world := nginx_host (Some "server_name example.org;").
(** The line break lost on the host. *)
Definition joined_host : world := nginx_host (Some (two_lines "")).

Definition nginx_resolved : resolved :=
  Resolved "deploy/nginx.conf" nginx_path (Some "service nginx restart") None None.

Definition nginx_reads : list event := [EExists nginx_path; ESudo (cat_command nginx_path)].

(** A descriptor with an owner and a mode whose template needs no secret. *)
Definition owned : list (string * dict) :=
  [ ("app",
     [ ("local_path", "deploy/supervisor.conf");
       ("remote_path", "/srv/%(proj_name)s/app.conf");
       ("reload_command", "service app reload");
       ("owner", "www-data");
       ("mode", "640") ]) ].

(** A host that refuses the chmod of the app file. *)
Definition no_chmod (ev : event) : bool :=
  match ev with
  | ESudo cmd => String.eqb cmd "chmod 640 /srv/blog/app.conf"
  | _ => false
  end.

Definition strict_host : world :=
  World site_env site_files ∅ "rev1" "rev2" no_chmod [].

(** The nginx template is an empty file and the host has no nginx file. *)
Definition empty_template_host : world :=
  World site_env (<["deploy/nginx.conf" := ""]> site_files) ∅
        "rev1" "rev2" willing [].

Definition nginx_one_line : string := "server_name example.org;".

(** The three results of the specification. *)
Inductive SyncResult : Type := Unchanged | Uploaded | Created.

Definition drifted_after : world :=
  snd (upload_template_and_reload templates fixed_db_pass "nginx" drifted_host).

(** The app host after a first call for the app template. *)
Definition app_after_first : world :=
  snd (upload_template_and_reload secured fixed_db_pass "app" fresh_host).

Definition nginx_pattern : list segment :=
  [Lit "/etc/nginx/sites-enabled/"; Placeholder "live_host"; Lit ".conf"].

Definition deployed : world := snd (deploy templates unbound_db_pass fresh_host).

(** A host whose locale file names another locale. *)
Definition locale_host : world :=
  World (<["repo_url" := "git@example.org:blog.git"]> site_env) site_files
        {[ "/etc/default/locale" := "LANG=C" ]} "rev1" "rev2" willing [].

(** The same host once [install] has run on it. *)
Definition installed_host : world := snd (install locale_host).

(** A host that refuses the clone. *)
Definition no_clone (ev : event) : bool :=
  match ev with
  | ERun _ cmd => String.prefix "git clone" cmd
  | _ => false
  end.

Definition closed_host : world :=
  World (<["repo_url" := "git@example.org:blog.git"]> site_env) site_files
        {[ "/etc/default/locale" := "LC_ALL=en_US.UTF-8" ]} "rev1" "rev2"
        no_clone [].

(** Settings with one host and no live host name. *)
Definition blog_settings : settings :=
  Settings None (Some "deploy") None None (Some ["example.org"]) None None
           (Some "git@example.org:blog.git") None.

(** Settings whose [HOSTS] list is empty. *)
Definition hostless_settings : settings :=
  Settings None (Some "deploy") None None (Some []) None None None None.

Definition configured_host : world :=
  World (configure (fun _ => "") blog_settings "me" "/work/blog" ∅)
        site_files ∅ "rev1" "rev2" willing [].

(** A registry without placeholders. *)
Definition motd_registry : list (string * dict) :=
  [ ("motd", [ ("local_path", "deploy/motd"); ("remote_path", "/etc/motd") ]) ].

(** ** Basic facts *)

Lemma bind_ok {A B : Type} (m : M A) (k : A -> M B) (w w' : world) (a : A) :
  m w = (Ok a, w') -> bind m k w = k a w'.
Proof. intros H; unfold bind; rewrite H; reflexivity. Qed.

Lemma bind_raise {A B : Type} (m : M A) (k : A -> M B) (w w' : world) (e : exn) :
  m w = (Raise e, w') -> bind m k w = (Raise e, w').
Proof. intros H; unfold bind; rewrite H; reflexivity. Qed.

Lemma bind_inv_ok {A B : Type} (m : M A) (k : A -> M B) (w w2 : world) (b : B) :
  bind m k w = (Ok b, w2) ->
  exists a w1, m w = (Ok a, w1) /\ k a w1 = (Ok b, w2).
Proof.
  unfold bind; destruct (m w) as [[a|e] w1]; intros H.
  - exists a, w1; split; [reflexivity | exact H].
  - discriminate H.
Qed.

(** *** Strings *)

Lemma append_cons (c : ascii) (a b : string) : String c a ++ b = String c (a ++ b).
Proof. reflexivity. Qed.

Lemma append_nil_l (a : string) : "" ++ a = a.
Proof. reflexivity. Qed.

Lemma append_nil_r (a : string) : a ++ "" = a.
Proof. induction a as [|c a IH]; [reflexivity|]. rewrite append_cons, IH. reflexivity. Qed.

Lemma append_assoc (a b c : string) : (a ++ b) ++ c = a ++ (b ++ c).
Proof.
  induction a as [|x a IH]; [reflexivity|].
  rewrite !append_cons, IH. reflexivity.
Qed.

Lemma snoc_append (out : string) (c : ascii) (t : string) :
  snoc out c ++ t = out ++ String c t.
Proof. unfold snoc. rewrite append_assoc. reflexivity. Qed.

(** *** The [%] operator on well-formed templates *)

Lemma fmt_go_lit (e : gmap string string) (t rest out : string) :
  has_char "%" t = false ->
  fmt_go e Text out (t ++ rest) = fmt_go e Text (out ++ t) rest.
Proof.
  revert out. induction t as [|c t IH]; intros out H.
  - rewrite append_nil_l, append_nil_r. reflexivity.
  - simpl in H. apply orb_false_elim in H as [Hc Ht].
    rewrite append_cons. simpl. rewrite Hc, (IH _ Ht), snoc_append. reflexivity.
Qed.

Lemma fmt_go_key (e : gmap string string) (k rest out acc : string) :
  has_char "(" k = false ->
  has_char ")" k = false ->
  fmt_go e (InKey 0 acc) out (k ++ String ")" rest) =
  match e !! (acc ++ k) with
  | Some v => fmt_go e (Conv v) out rest
  | None => Raise (KeyError (acc ++ k))
  end.
Proof.
  revert acc. induction k as [|c k IH]; intros acc Ho Hc.
  - rewrite append_nil_l, append_nil_r. reflexivity.
  - simpl in Ho, Hc.
    apply orb_false_elim in Ho as [Ho1 Ho2].
    apply orb_false_elim in Hc as [Hc1 Hc2].
    rewrite append_cons. simpl. rewrite Ho1, Hc1, (IH _ Ho2 Hc2), snoc_append.
    reflexivity.
Qed.

Lemma fmt_go_segments (e : gmap string string) (segs : list segment) (out : string) :
  well_formed segs = true ->
  fmt_go e Text out (unparse segs) =
  match first_missing segs e with
  | Some k => Raise (KeyError k)
  | None => Ok (out ++ fill segs e)
  end.
Proof.
  revert out. induction segs as [|x segs IH]; intros out Hwf.
  - simpl. rewrite append_nil_r. reflexivity.
  - simpl in Hwf. apply andb_prop in Hwf as [Hx Hwf].
    destruct x as [t|k|]; simpl in Hx |- *.
    + apply negb_true_iff in Hx.
      rewrite (fmt_go_lit _ _ _ _ Hx), (IH _ Hwf).
      destruct (first_missing segs e); [reflexivity|].
      rewrite append_assoc. reflexivity.
    + apply andb_prop in Hx as [Ho Hc].
      apply negb_true_iff in Ho. apply negb_true_iff in Hc.
      change ("%(" ++ k ++ ")s" ++ unparse segs)
        with (String "%" (String "(" (k ++ String ")" (String "s" (unparse segs))))).
      cbn [fmt_go]. simpl.
      change ("" ++ k ++ ")s" ++ unparse segs)
        with (k ++ String ")" (String "s" (unparse segs))).
      rewrite (fmt_go_key e k _ out "" Ho Hc). rewrite append_nil_l.
      destruct (e !! k) as [v|]; [|reflexivity].
      simpl. rewrite (IH _ Hwf).
      destruct (first_missing segs e); [reflexivity|].
      rewrite append_assoc. reflexivity.
    + change ("%%" ++ unparse segs) with (String "%" (String "%" (unparse segs))).
      simpl. rewrite (IH _ Hwf).
      destruct (first_missing segs e); [reflexivity|].
      rewrite snoc_append. reflexivity.
Qed.

Lemma py_format_substitute (segs : list segment) (e : gmap string string) :
  well_formed segs = true -> py_format (unparse segs) e = substitute segs e.
Proof.
  intros Hwf. unfold py_format, substitute.
  rewrite (fmt_go_segments e segs "" Hwf). reflexivity.
Qed.

(** *** [clean] is the normalisation of the specification *)

Lemma replace1_filter (old : ascii) (s : string) :
  list_ascii_of_string (replace1 old "" s) =
  List.filter (fun c => negb (Ascii.eqb c old)) (list_ascii_of_string s).
Proof.
  induction s as [|c s IH]; [reflexivity|].
  simpl. destruct (Ascii.eqb c old); simpl.
  - change (String.append "" (replace1 old "" s)) with (replace1 old "" s).
    exact IH.
  - rewrite IH. reflexivity.
Qed.

Lemma filter_filter (p q : ascii -> bool) (l : list ascii) :
  List.filter p (List.filter q l) = List.filter (fun c => q c && p c) l.
Proof.
  induction l as [|c l IH]; [reflexivity|].
  simpl. destruct (q c); simpl.
  - destruct (p c); rewrite IH; reflexivity.
  - exact IH.
Qed.

Lemma lstrip_drop_while (s : string) :
  list_ascii_of_string (lstrip s) = drop_while isspace (list_ascii_of_string s).
Proof.
  induction s as [|c s IH]; [reflexivity|].
  cbn [lstrip list_ascii_of_string drop_while].
  destruct (isspace c); [exact IH | reflexivity].
Qed.

Lemma drop_while_snoc (p : ascii -> bool) (l : list ascii) (c : ascii) :
  drop_while p (l ++ [c])%list =
  match drop_while p l with
  | [] => if p c then [] else [c]
  | _ :: _ => (drop_while p l ++ [c])%list
  end.
Proof.
  induction l as [|a l IH]; [reflexivity|].
  cbn [app drop_while]. destruct (p a); [exact IH | reflexivity].
Qed.

Lemma rstrip_drop_while (s : string) :
  list_ascii_of_string (rstrip s) =
  rev (drop_while isspace (rev (list_ascii_of_string s))).
Proof.
  induction s as [|c s IH]; [reflexivity|].
  cbn [rstrip list_ascii_of_string rev].
  rewrite drop_while_snoc.
  destruct (drop_while isspace (rev (list_ascii_of_string s))) as [|a l] eqn:Hd.
  - cbn [rev] in IH. destruct (rstrip s); [|discriminate IH].
    cbn [is_empty]. destruct (isspace c); reflexivity.
  - assert (Hne : is_empty (rstrip s) = false).
    { destruct (rstrip s); [|reflexivity].
      cbn [list_ascii_of_string] in IH. symmetry in IH.
      apply (f_equal (@List.length ascii)) in IH.
      rewrite length_rev in IH. discriminate IH. }
    rewrite Hne, andb_false_r. cbn [list_ascii_of_string].
    rewrite IH, rev_app_distr. reflexivity.
Qed.

Lemma clean_normalize (s : string) : clean s = normalize s.
Proof.
  rewrite <- (string_of_list_ascii_of_string (clean s)).
  unfold normalize, clean, strip, trim. f_equal.
  rewrite rstrip_drop_while, lstrip_drop_while, !replace1_filter, filter_filter.
  do 4 f_equal. apply filter_ext. intros c.
  unfold is_linebreak. rewrite negb_orb. reflexivity.
Qed.

Lemma substring_all (s : string) : String.substring 0 (String.length s) s = s.
Proof. induction s as [|c s IH]; simpl; [reflexivity | rewrite IH; reflexivity]. Qed.

Lemma cat_target_cat (p : string) : cat_target (cat_command p) = Some p.
Proof.
  unfold cat_target, cat_command; simpl.
  change (String.append "" p) with p.
  replace (String.prefix "" p) with true by (destruct p; reflexivity).
  rewrite Nat.sub_0_r, substring_all; reflexivity.
Qed.

Lemma shell_output_cat (fs : gmap string string) (p : string) :
  shell_output fs (cat_command p) = default "" (fs !! p).
Proof. unfold shell_output; rewrite cat_target_cat; reflexivity. Qed.

Lemma eqb_false_neq (a b : string) : String.eqb a b = false <-> a <> b.
Proof. apply String.eqb_neq. Qed.

Lemma attempt_all_none (r : event -> bool) (ops : list event) :
  (forall ev, In ev ops -> r ev = false) -> attempt_all r ops = (ops, None).
Proof.
  induction ops as [|ev ops IH]; intros H; [reflexivity|].
  simpl. rewrite (H ev) by (left; reflexivity).
  rewrite IH by (intros ev' Hin; apply H; right; exact Hin). reflexivity.
Qed.

Lemma attempt_all_complete (r : event -> bool) (ops : list event) :
  snd (attempt_all r ops) = None -> fst (attempt_all r ops) = ops.
Proof.
  induction ops as [|ev ops IH]; [reflexivity|].
  simpl. destruct (r ev); [discriminate|].
  destruct (attempt_all r ops) as [asked bad]; simpl in *.
  intros H. rewrite (IH H). reflexivity.
Qed.

Lemma attempt_all_app (r : event -> bool) (ops rest : list event) :
  (forall ev, In ev ops -> r ev = false) ->
  attempt_all r (ops ++ rest) =
  ((ops ++ fst (attempt_all r rest))%list, snd (attempt_all r rest)).
Proof.
  induction ops as [|ev ops IH]; intros H.
  - simpl. destruct (attempt_all r rest); reflexivity.
  - simpl. rewrite (H ev) by (left; reflexivity).
    rewrite IH by (intros ev' Hin; apply H; right; exact Hin). reflexivity.
Qed.

Lemma append_linebreak_neq (a b : string) : a ++ b <> a ++ String LF b.
Proof.
  induction a as [|c a IH].
  - change (b <> String LF b). intros H.
    apply (f_equal String.length) in H. simpl in H. lia.
  - intros H. apply IH.
    change (String c (a ++ b) = String c (a ++ String LF b)) in H.
    injection H as H. exact H.
Qed.

Lemma replace1_linebreak (a b : string) :
  replace1 LF "" (a ++ String LF b) = replace1 LF "" (a ++ b).
Proof.
  induction a as [|c a IH].
  - change (replace1 LF "" (String LF b) = replace1 LF "" b). reflexivity.
  - change (replace1 LF "" (String c (a ++ String LF b)) =
            replace1 LF "" (String c (a ++ b))).
    simpl. rewrite IH. reflexivity.
Qed.

Lemma clean_linebreak (a b : string) : clean (a ++ b) = clean (a ++ String LF b).
Proof. unfold clean. rewrite replace1_linebreak. reflexivity. Qed.

Section FabfileFacts.

Variable registry : list (string * dict).
Variable db_pass : gmap string string -> outcome string * gmap string string.


(** A call that reaches line 155 has read exactly these things. *)
Lemma gather_inv (name : string) (w w1 : world) (g : gathered) :
  gather registry db_pass name w = (Ok g, w1) ->
  exists raw,
    resolve registry (env w) name = Ok (template g) /\
    local_fs w !! local_path (template g) = Some raw /\
    remote_data g = default "" (remote_fs w !! remote_path (template g)) /\
    py_format raw (env w1) = Ok (local_data g) /\
    w1 = World (env w1) (local_fs w) (remote_fs w) (repo_head w) (repo_origin w)
               (refuses w)
               (trace w ++ probe_ops (remote_fs w) (remote_path (template g))
                        ++ secret_ops raw) /\
    (contains "%(db_pass)s" raw = false -> env w1 = env w) /\
    (contains "%(db_pass)s" raw = true ->
     exists v e', db_pass (env w) = (Ok v, e') /\ env w1 = <["db_pass" := v]> e').
Proof.
  unfold gather. intros H.
  apply bind_inv_ok in H as (t & wa & Ht & H).
  injection Ht as Ht <-.
  apply bind_inv_ok in H as (present & wb & Hp & H).
  unfold exists_, bind, emit in Hp. injection Hp as Hp <-.
  apply bind_inv_ok in H as (rd & wc & Hrd & H).
  apply bind_inv_ok in H as (raw & wd & Hraw & H).
  unfold read_local in Hraw.
  apply bind_inv_ok in H as (u & we & Hsec & H).
  apply bind_inv_ok in H as (e & wf & He & H).
  injection He as <- <-.
  apply bind_inv_ok in H as (ld & wg & Hld & H).
  unfold lift in Hld. injection Hld as Hld <-.
  injection H as <- <-. simpl.
  exists raw.
  assert (Hc : rd = default "" (remote_fs w !! remote_path t) /\
               wc = with_trace w (trace w ++ probe_ops (remote_fs w) (remote_path t))).
  { unfold probe_ops.
    destruct (remote_fs w !! remote_path t) as [c|] eqn:Hfs; subst present.
    - unfold sudo, attempt, bind, emit in Hrd; simpl in Hrd.
      destruct (refuses w _); [discriminate Hrd|].
      injection Hrd as <- <-. rewrite shell_output_cat. simpl. rewrite Hfs.
      split; [reflexivity|]. unfold with_trace; simpl.
      rewrite <- app_assoc; reflexivity.
    - injection Hrd as <- <-. split; reflexivity. }
  destruct Hc as [-> ->]. simpl in Hraw.
  destruct (local_fs w !! local_path t) as [raw'|] eqn:Hl; [|discriminate Hraw].
  injection Hraw as -> <-.
  unfold secret_ops.
  destruct (contains "%(db_pass)s" raw) eqn:Hm.
  - unfold call_db_pass, emit, setattr, bind in Hsec; simpl in Hsec.
    destruct (db_pass (env w)) as [[v|x] e'] eqn:Hdb; [|discriminate Hsec].
    injection Hsec as _ <-. simpl.
    repeat split; try assumption; try discriminate.
    + rewrite <- app_assoc; reflexivity.
    + intros _. exists v, e'. split; reflexivity.
  - injection Hsec as _ <-. simpl.
    repeat split; try assumption; try discriminate.
    rewrite app_nil_r; reflexivity.
Qed.

Lemma upload_template_run (f d raw text : string) (w : world) :
  local_fs w !! f = Some raw ->
  py_format raw (env w) = Ok text ->
  upload_template f d w =
  if refuses w (EUpload d text)
  then (Raise (SystemExit (EUpload d text)),
        with_trace w (trace w ++ [EUpload d text]))
  else (Ok tt,
        World (env w) (local_fs w) (<[d := text]> (remote_fs w)) (repo_head w)
              (repo_origin w) (refuses w) (trace w ++ [EUpload d text])).
Proof.
  intros Hraw Hfmt.
  unfold upload_template, read_local, get_env, lift, attempt, emit, bind.
  rewrite Hraw, Hfmt. simpl.
  destruct (refuses w (EUpload d text)); reflexivity.
Qed.

(** Lines 155-157: equal after cleaning, nothing more is asked. *)
Lemma act_unchanged (g : gathered) (w : world) :
  clean (remote_data g) = clean (local_data g) ->
  act g w = (Ok VNone, w).
Proof.
  intros H. unfold act. rewrite H, String.eqb_refl. reflexivity.
Qed.

(** Lines 158-164: the operations of [changes g] are asked in order, up to
    the first one refused; the file is in place once the upload got
    through. *)
Lemma act_changed (g : gathered) (raw : string) (w : world) :
  clean (remote_data g) <> clean (local_data g) ->
  local_fs w !! local_path (template g) = Some raw ->
  py_format raw (env w) = Ok (local_data g) ->
  act g w =
  (match snd (attempt_all (refuses w) (changes g)) with
   | None => Ok VNone
   | Some ev => Raise (SystemExit ev)
   end,
   World (env w) (local_fs w)
         (if refuses w (EUpload (remote_path (template g)) (local_data g))
          then remote_fs w
          else <[remote_path (template g) := local_data g]> (remote_fs w))
         (repo_head w) (repo_origin w) (refuses w)
         (trace w ++ fst (attempt_all (refuses w) (changes g)))).
Proof.
  intros Hne Hraw Hfmt.
  apply eqb_false_neq in Hne.
  unfold act, changes, owner_ops, mode_ops, reload_ops. rewrite Hne.
  unfold bind at 1. rewrite (upload_template_run _ _ _ _ _ Hraw Hfmt).
  simpl.
  destruct (refuses w (EUpload _ _)) eqn:Hup; simpl; [reflexivity|].
  destruct (truthy (owner (template g))), (truthy (mode (template g))),
           (truthy (reload_command (template g)));
    unfold sudo, attempt, emit, ret, bind; simpl;
    repeat (match goal with
            | |- context [refuses w ?ev] => destruct (refuses w ev) eqn:?; simpl
            end);
    rewrite <- ?app_assoc; simpl; reflexivity.
Qed.

Lemma sync_gather (name : string) (w w1 : world) (g : gathered) :
  gather registry db_pass name w = (Ok g, w1) -> upload_template_and_reload registry db_pass name w = act g w1.
Proof. intros H. unfold upload_template_and_reload. apply bind_ok, H. Qed.

(** Gathering asks only reads and touches nothing but [env] and the trace. *)
Lemma gather_frame (name : string) (w w1 : world) (g : gathered) :
  gather registry db_pass name w = (Ok g, w1) ->
  local_fs w1 = local_fs w /\ remote_fs w1 = remote_fs w /\
  repo_head w1 = repo_head w /\ repo_origin w1 = repo_origin w /\
  refuses w1 = refuses w.
Proof.
  intros H. apply gather_inv in H as (raw & _ & _ & _ & _ & Hw & _).
  rewrite Hw; simpl. repeat split; reflexivity.
Qed.

(** Lines 140-154 run forward. *)
Lemma gather_run (name : string) (w : world) (t : resolved) (raw : string)
      (e1 : gmap string string) :
  resolve registry (env w) name = Ok t ->
  refuses w (ESudo (cat_command (remote_path t))) = false ->
  local_fs w !! local_path t = Some raw ->
  derive_secret db_pass raw (env w) = Ok e1 ->
  gather registry db_pass name w =
  (match py_format raw e1 with
   | Ok text => Ok (Gathered t (default "" (remote_fs w !! remote_path t)) text)
   | Raise x => Raise x
   end,
   World e1 (local_fs w) (remote_fs w) (repo_head w) (repo_origin w) (refuses w)
         (trace w ++ probe_ops (remote_fs w) (remote_path t) ++ secret_ops raw)).
Proof.
  intros Hres Hcat Hraw Hsec.
  unfold gather, derive_secret, secret_ops, probe_ops in *.
  unfold bind at 1. rewrite Hres.
  unfold exists_, emit, bind at 2. unfold bind at 1. simpl.
  assert (Hrd :
    (if match remote_fs w !! remote_path t with Some _ => true | None => false end
     then sudo (cat_command (remote_path t)) else ret "")
      (with_trace w (trace w ++ [EExists (remote_path t)])) =
    (Ok (default "" (remote_fs w !! remote_path t)),
     with_trace w (trace w ++ EExists (remote_path t) ::
                     match remote_fs w !! remote_path t with
                     | Some _ => [ESudo (cat_command (remote_path t))]
                     | None => []
                     end))).
  { destruct (remote_fs w !! remote_path t) as [c|] eqn:Hfs.
    - unfold sudo, attempt, emit, bind. simpl. rewrite Hcat, shell_output_cat.
      simpl. rewrite Hfs, <- app_assoc. reflexivity.
    - reflexivity. }
  unfold bind at 1. rewrite Hrd.
  unfold read_local, bind at 1. simpl. rewrite Hraw.
  destruct (contains "%(db_pass)s" raw).
  - unfold call_db_pass, setattr, emit, get_env, lift, ret, bind. simpl.
    destruct (db_pass (env w)) as [[v|x] e'] eqn:Hdb; [|discriminate Hsec].
    injection Hsec as <-. simpl.
    destruct (py_format raw _); simpl; rewrite <- app_assoc; reflexivity.
  - injection Hsec as <-.
    unfold get_env, lift, ret, bind. simpl.
    destruct (py_format raw _); simpl; rewrite app_nil_r; reflexivity.
Qed.

(** Lines 155-164 leave [env], the local files, the checkout and the
    remote's temper alone. *)
Lemma act_frame (g : gathered) (raw : string) (w : world) :
  local_fs w !! local_path (template g) = Some raw ->
  py_format raw (env w) = Ok (local_data g) ->
  env (snd (act g w)) = env w /\
  local_fs (snd (act g w)) = local_fs w /\
  refuses (snd (act g w)) = refuses w /\
  repo_head (snd (act g w)) = repo_head w /\
  repo_origin (snd (act g w)) = repo_origin w.
Proof.
  intros Hraw Hfmt.
  destruct (String.eqb (clean (remote_data g)) (clean (local_data g))) eqn:Hc.
  - apply String.eqb_eq in Hc. rewrite (act_unchanged g w Hc).
    repeat split; reflexivity.
  - apply eqb_false_neq in Hc. rewrite (act_changed g raw w Hc Hraw Hfmt).
    repeat split; reflexivity.
Qed.

(** *** Claims about one call of [upload_template_and_reload] *)

(** C2. Change detection.  At line 156 the call compares the remote content
    (the content of the file at the remote path, the empty string when
    there is none) with the rendered local template, each normalised by
    [clean], which deletes every line feed and carriage return and trims
    the white space at both ends.  When the normalised strings are equal
    the call returns without asking anything more; when they differ the
    next operation asked is the upload of the rendered text.  Remote
    "a\r\nb" and local "a\nb" are equal after normalisation; remote "a\nb"
    and local "a\nb\nc" are not. *)
Theorem change_detection (name : string) (w w1 : world) (g : gathered) :
  gather registry db_pass name w = (Ok g, w1) ->
  remote_data g = default "" (remote_fs w !! remote_path (template g)) /\
  (exists raw, local_fs w !! local_path (template g) = Some raw /\
               py_format raw (env w1) = Ok (local_data g) /\
               trace w1 = (trace w ++ probe_ops (remote_fs w) (remote_path (template g))
                                   ++ secret_ops raw)%list) /\
  (forall s, clean s = normalize s) /\
  (clean (remote_data g) = clean (local_data g) ->
   upload_template_and_reload registry db_pass name w = (Ok VNone, w1)) /\
  (clean (remote_data g) <> clean (local_data g) ->
   exists rest,
     trace (snd (upload_template_and_reload registry db_pass name w)) =
     (trace w1 ++ EUpload (remote_path (template g)) (local_data g) :: rest)%list) /\
  clean ("a" ++ String CR (String LF "b")) = clean ("a" ++ String LF "b") /\
  clean ("a" ++ String LF "b") <> clean ("a" ++ String LF ("b" ++ String LF "c")).
Proof.
  intros Hg. pose proof (sync_gather _ _ _ _ Hg) as Hs.
  destruct (gather_inv _ _ _ _ Hg) as (raw & _ & Hraw & Hrd & Hfmt & Hw & _).
  split; [exact Hrd|]. split.
  { exists raw. repeat split; try assumption. rewrite Hw at 1. reflexivity. }
  split; [exact clean_normalize|]. split.
  { intros Heq. rewrite Hs. apply act_unchanged, Heq. }
  split.
  { intros Hne. rewrite Hs.
    assert (Hl : local_fs w1 !! local_path (template g) = Some raw).
    { rewrite Hw; simpl; exact Hraw. }
    rewrite (act_changed g raw w1 Hne Hl Hfmt). simpl.
    destruct (refuses w1 _); simpl.
    - exists []. reflexivity.
    - destruct (attempt_all _ _) as [asked bad]. exists asked. reflexivity. }
  split; [reflexivity | discriminate].
Qed.

(** C10. Line breaks inside the content are erased by the normalisation:
    whenever the remote content and the rendered local template are the
    same after deleting every line feed and carriage return and trimming
    the ends, the call returns at line 157, asks for no upload and leaves
    the remote files as they are.  Contents that really differ are among
    them: [a ++ b] and [a] followed by a line feed and [b] are different
    strings with the same normalisation (remote "ab", local "a\nb"). *)
Theorem linebreaks_inside_content_erased (name : string) (w w1 : world)
        (g : gathered) :
  gather registry db_pass name w = (Ok g, w1) ->
  normalize (remote_data g) = normalize (local_data g) ->
  upload_template_and_reload registry db_pass name w = (Ok VNone, w1) /\
  remote_fs w1 = remote_fs w /\
  (exists raw,
     trace w1 = (trace w ++ probe_ops (remote_fs w) (remote_path (template g))
                         ++ secret_ops raw)%list) /\
  (forall a b : string,
     a ++ b <> a ++ String LF b /\
     normalize (a ++ b) = normalize (a ++ String LF b)).
Proof.
  intros Hg Hn. rewrite <- !clean_normalize in Hn.
  split; [rewrite (sync_gather _ _ _ _ Hg); apply act_unchanged, Hn|].
  split; [apply (gather_frame _ _ _ _ Hg)|].
  destruct (gather_inv _ _ _ _ Hg) as (raw & _ & _ & _ & _ & Hw & _).
  split; [exists raw; rewrite Hw at 1; reflexivity|].
  intros a b. split; [apply append_linebreak_neq|].
  rewrite <- !clean_normalize. apply clean_linebreak.
Qed.

(** C4. Reload firing.  For a descriptor with a reload command, a call
    whose remote operations all succeed asks for the reload command once,
    as its last operation, when the comparison finds the contents
    different, and asks for nothing after the reads when it finds them
    equal. *)
Theorem reload_fires_once (name : string) (w w1 : world) (g : gathered)
        (c : string) :
  gather registry db_pass name w = (Ok g, w1) ->
  reload_command (template g) = Some c ->
  c <> "" ->
  (forall ev, In ev (changes g) -> refuses w ev = false) ->
  reload_ops (template g) = [ESudo c] /\
  (clean (remote_data g) = clean (local_data g) ->
   upload_template_and_reload registry db_pass name w = (Ok VNone, w1)) /\
  (clean (remote_data g) <> clean (local_data g) ->
   exists w2,
     upload_template_and_reload registry db_pass name w = (Ok VNone, w2) /\
     trace w2 =
     (trace w1 ++ EUpload (remote_path (template g)) (local_data g)
               :: owner_ops (template g) ++ mode_ops (template g)
               ++ [ESudo c])%list).
Proof.
  intros Hg Hc Hne Hok.
  assert (Hr : reload_ops (template g) = [ESudo c]).
  { unfold reload_ops. rewrite Hc. destruct c; [congruence | reflexivity]. }
  split; [exact Hr|].
  rewrite (sync_gather _ _ _ _ Hg).
  split; [apply act_unchanged|].
  intros Hd.
  destruct (gather_inv _ _ _ _ Hg) as (raw & _ & Hraw & _ & Hfmt & Hw & _).
  destruct (gather_frame _ _ _ _ Hg) as (Hl & _ & _ & _ & Hrf).
  rewrite <- Hl in Hraw. rewrite <- Hrf in Hok.
  rewrite (act_changed g raw w1 Hd Hraw Hfmt).
  rewrite (attempt_all_none _ _ Hok). simpl.
  eexists; split; [reflexivity|]. simpl.
  unfold changes. rewrite Hr. reflexivity.
Qed.

(** Lines 158-162 with the possible refusals, in terms of [owner_ops] and
    [mode_ops]. *)
Lemma owner_and_mode_ops (name : string) (w w1 : world)
        (g : gathered) :
  gather registry db_pass name w = (Ok g, w1) ->
  let t := template g in
  let up := EUpload (remote_path t) (local_data g) in
  (forall o, owner t = Some o -> o <> "" ->
     owner_ops t = [ESudo (chown_command o (remote_path t))]) /\
  (forall m, mode t = Some m -> m <> "" ->
     mode_ops t = [ESudo (chmod_command m (remote_path t))]) /\
  (clean (remote_data g) = clean (local_data g) ->
   upload_template_and_reload registry db_pass name w = (Ok VNone, w1)) /\
  (clean (remote_data g) <> clean (local_data g) ->
   (refuses w up = true ->
    upload_template_and_reload registry db_pass name w = (Raise (SystemExit up), with_trace w1 (trace w1 ++ [up]))) /\
   (refuses w up = false ->
    forall o, owner t = Some o -> o <> "" ->
    refuses w (ESudo (chown_command o (remote_path t))) = true ->
    exists w2,
      upload_template_and_reload registry db_pass name w =
      (Raise (SystemExit (ESudo (chown_command o (remote_path t)))), w2) /\
      remote_fs w2 !! remote_path t = Some (local_data g) /\
      trace w2 = (trace w1 ++ [up; ESudo (chown_command o (remote_path t))])%list) /\
   (refuses w up = false ->
    (forall ev, In ev (owner_ops t) -> refuses w ev = false) ->
    forall m, mode t = Some m -> m <> "" ->
    refuses w (ESudo (chmod_command m (remote_path t))) = true ->
    exists w2,
      upload_template_and_reload registry db_pass name w =
      (Raise (SystemExit (ESudo (chmod_command m (remote_path t)))), w2) /\
      remote_fs w2 !! remote_path t = Some (local_data g) /\
      trace w2 = (trace w1 ++ up :: owner_ops t
                           ++ [ESudo (chmod_command m (remote_path t))])%list) /\
   ((forall ev, In ev (changes g) -> refuses w ev = false) ->
    exists w2,
      upload_template_and_reload registry db_pass name w = (Ok VNone, w2) /\
      remote_fs w2 !! remote_path t = Some (local_data g) /\
      trace w2 = (trace w1 ++ up :: owner_ops t ++ mode_ops t ++ reload_ops t)%list)).
Proof.
  intros Hg t up.
  assert (Ho : forall o, owner t = Some o -> o <> "" ->
               owner_ops t = [ESudo (chown_command o (remote_path t))]).
  { intros o Ho Hne. unfold owner_ops. rewrite Ho.
    destruct o; [congruence | reflexivity]. }
  assert (Hm : forall m, mode t = Some m -> m <> "" ->
               mode_ops t = [ESudo (chmod_command m (remote_path t))]).
  { intros m Hm Hne. unfold mode_ops. rewrite Hm.
    destruct m; [congruence | reflexivity]. }
  split; [exact Ho|]. split; [exact Hm|].
  rewrite (sync_gather _ _ _ _ Hg).
  split; [apply act_unchanged|].
  intros Hd.
  destruct (gather_inv _ _ _ _ Hg) as (raw & _ & Hraw & _ & Hfmt & _).
  destruct (gather_frame _ _ _ _ Hg) as (Hl & _ & _ & _ & Hrf).
  rewrite <- Hl in Hraw. rewrite <- Hrf.
  rewrite (act_changed g raw w1 Hd Hraw Hfmt).
  fold t. fold up. unfold changes. fold t. fold up.
  repeat split.
  - intros Hup. simpl. rewrite Hup. simpl. reflexivity.
  - intros Hup o Hoo Hne Hch. rewrite Hup, (Ho o Hoo Hne).
    simpl. rewrite Hup, Hch. simpl.
    eexists; split; [reflexivity|]. simpl.
    split; [apply lookup_insert_eq | reflexivity].
  - intros Hup Hown m Hmm Hne Hch. rewrite Hup, (Hm m Hmm Hne).
    simpl. rewrite Hup.
    rewrite (attempt_all_app _ _ _ Hown). simpl. rewrite Hch. simpl.
    eexists; split; [reflexivity|]. simpl.
    split; [apply lookup_insert_eq | reflexivity].
  - intros Hok. rewrite (Hok up) by (left; reflexivity).
    rewrite (attempt_all_none _ _ Hok). simpl.
    eexists; split; [reflexivity|]. simpl.
    split; [apply lookup_insert_eq | reflexivity].
Qed.

(** C8. Owner and mode.  The chown and the chmod are asked only after an
    upload that got through, chown first: a call that finds the contents
    equal asks for neither, and a refused upload ends the call before
    them.  When the chown or the chmod is refused, the call aborts there
    with the uploaded text still in place at the remote path.  ([owner]
    and [mode] count as set when they are non-empty strings, line 159 and
    line 161.) *)
Theorem owner_and_mode_after_upload (name : string) (w w1 : world)
        (g : gathered) :
  gather registry db_pass name w = (Ok g, w1) ->
  let t := template g in
  let up := EUpload (remote_path t) (local_data g) in
  (forall o, owner t = Some o -> o <> "" ->
     owner_ops t = [ESudo ("chown " ++ o ++ " " ++ remote_path t)]) /\
  (forall m, mode t = Some m -> m <> "" ->
     mode_ops t = [ESudo ("chmod " ++ m ++ " " ++ remote_path t)]) /\
  (clean (remote_data g) = clean (local_data g) ->
   upload_template_and_reload registry db_pass name w = (Ok VNone, w1)) /\
  (clean (remote_data g) <> clean (local_data g) ->
   (refuses w up = true ->
    upload_template_and_reload registry db_pass name w = (Raise (SystemExit up), with_trace w1 (trace w1 ++ [up]))) /\
   (refuses w up = false ->
    forall o, owner t = Some o -> o <> "" ->
    refuses w (ESudo ("chown " ++ o ++ " " ++ remote_path t)) = true ->
    exists w2,
      upload_template_and_reload registry db_pass name w =
      (Raise (SystemExit (ESudo ("chown " ++ o ++ " " ++ remote_path t))), w2) /\
      remote_fs w2 !! remote_path t = Some (local_data g) /\
      trace w2 = (trace w1 ++ [up; ESudo ("chown " ++ o ++ " " ++ remote_path t)])%list) /\
   (refuses w up = false ->
    (forall ev, In ev (owner_ops t) -> refuses w ev = false) ->
    forall m, mode t = Some m -> m <> "" ->
    refuses w (ESudo ("chmod " ++ m ++ " " ++ remote_path t)) = true ->
    exists w2,
      upload_template_and_reload registry db_pass name w =
      (Raise (SystemExit (ESudo ("chmod " ++ m ++ " " ++ remote_path t))), w2) /\
      remote_fs w2 !! remote_path t = Some (local_data g) /\
      trace w2 = (trace w1 ++ up :: owner_ops t
                           ++ [ESudo ("chmod " ++ m ++ " " ++ remote_path t)])%list) /\
   ((forall ev, In ev (changes g) -> refuses w ev = false) ->
    exists w2,
      upload_template_and_reload registry db_pass name w = (Ok VNone, w2) /\
      remote_fs w2 !! remote_path t = Some (local_data g) /\
      trace w2 = (trace w1 ++ up :: owner_ops t ++ mode_ops t ++ reload_ops t)%list)).
Proof. exact (owner_and_mode_ops name w w1 g). Qed.

(** C7, as the code has it.  When the remote path does not exist the call
    compares the rendered local template with the empty string.  It then
    uploads (and the file exists afterwards) exactly when the rendered
    template is not empty after normalisation; a template that renders to
    the empty string, or to white space and line breaks only, is not
    uploaded and the remote file is not created.  The call returns [None]
    either way. *)
Theorem first_deploy (name : string) (w w1 : world) (g : gathered) :
  gather registry db_pass name w = (Ok g, w1) ->
  remote_fs w !! remote_path (template g) = None ->
  remote_data g = "" /\
  (clean (local_data g) = "" ->
   upload_template_and_reload registry db_pass name w = (Ok VNone, w1) /\
   remote_fs w1 !! remote_path (template g) = None) /\
  (clean (local_data g) <> "" ->
   (forall ev, In ev (changes g) -> refuses w ev = false) ->
   exists w2,
     upload_template_and_reload registry db_pass name w = (Ok VNone, w2) /\
     remote_fs w2 !! remote_path (template g) = Some (local_data g) /\
     trace w2 = (trace w1 ++ changes g)%list).
Proof.
  intros Hg Habs.
  destruct (gather_inv _ _ _ _ Hg) as (raw & _ & Hraw & Hrd & Hfmt & _).
  destruct (gather_frame _ _ _ _ Hg) as (Hl & Hr & _ & _ & Hrf).
  rewrite Habs in Hrd. simpl in Hrd.
  rewrite (sync_gather _ _ _ _ Hg).
  split; [exact Hrd|]. split.
  - intros Hc. split; [|rewrite Hr; exact Habs].
    apply act_unchanged. rewrite Hrd, Hc. reflexivity.
  - intros Hc Hok. rewrite <- Hl in Hraw. rewrite <- Hrf in Hok.
    assert (Hd : clean (remote_data g) <> clean (local_data g)).
    { rewrite Hrd. intros H. apply Hc. rewrite <- H. reflexivity. }
    rewrite (act_changed g raw w1 Hd Hraw Hfmt).
    rewrite (attempt_all_none _ _ Hok).
    rewrite (Hok (EUpload (remote_path (template g)) (local_data g)))
      by (left; reflexivity).
    eexists; split; [reflexivity|]. simpl.
    split; [apply lookup_insert_eq | reflexivity].
Qed.

(** A completed call, taken apart. *)
Lemma sync_inv (name : string) (w w' : world) (r : value) :
  upload_template_and_reload registry db_pass name w = (Ok r, w') ->
  r = VNone /\
  exists g w1,
    gather registry db_pass name w = (Ok g, w1) /\
    remote_data g = default "" (remote_fs w !! remote_path (template g)) /\
    if String.eqb (clean (remote_data g)) (clean (local_data g))
    then w' = w1
    else trace w' = (trace w1 ++ changes g)%list /\
         remote_fs w' !! remote_path (template g) = Some (local_data g).
Proof.
  intros Hs. unfold upload_template_and_reload in Hs.
  apply bind_inv_ok in Hs as (g & w1 & Hg & Ha).
  destruct (gather_inv _ _ _ _ Hg) as (raw & _ & Hraw & Hrd & Hfmt & _).
  destruct (gather_frame _ _ _ _ Hg) as (Hl & _).
  rewrite <- Hl in Hraw.
  destruct (String.eqb (clean (remote_data g)) (clean (local_data g))) eqn:Hc.
  - apply String.eqb_eq in Hc. rewrite (act_unchanged g w1 Hc) in Ha.
    injection Ha as <- <-.
    split; [reflexivity|]. exists g, w1. rewrite Hc, String.eqb_refl.
    repeat split; assumption.
  - pose proof Hc as Hd. apply eqb_false_neq in Hd.
    rewrite (act_changed g raw w1 Hd Hraw Hfmt) in Ha.
    pose proof (attempt_all_complete (refuses w1) (changes g)) as Hall.
    assert (Hup : snd (attempt_all (refuses w1) (changes g)) = None ->
                  refuses w1 (EUpload (remote_path (template g)) (local_data g))
                  = false).
    { unfold changes. simpl. destruct (refuses w1 (EUpload _ _)); [discriminate|].
      reflexivity. }
    destruct (attempt_all (refuses w1) (changes g)) as [asked [bad|]];
      simpl in Ha, Hall, Hup; [discriminate Ha|].
    rewrite Hup in Ha by reflexivity. rewrite Hall in Ha by reflexivity.
    injection Ha as <- <-.
    split; [reflexivity|]. exists g, w1. rewrite Hc. simpl.
    repeat split; try assumption.
    apply lookup_insert_eq.
Qed.

(** C3, as the code has it.  A call that completes returns [None], whether
    it found the contents equal (no operation after the reads) or
    uploaded (the operations of [changes] after the reads, the text now at
    the remote path); whether the remote path existed before only decides
    the remote content compared. *)
Theorem sync_returns_none (name : string) (w w' : world) (r : value) :
  upload_template_and_reload registry db_pass name w = (Ok r, w') ->
  r = VNone /\
  exists g w1,
    gather registry db_pass name w = (Ok g, w1) /\
    remote_data g = default "" (remote_fs w !! remote_path (template g)) /\
    if String.eqb (clean (remote_data g)) (clean (local_data g))
    then w' = w1
    else trace w' = (trace w1 ++ changes g)%list /\
         remote_fs w' !! remote_path (template g) = Some (local_data g).
Proof. exact (sync_inv name w w' r). Qed.

(** C1. Idempotence.  After a call that completed, a second call on the
    state it left (local and remote files untouched in between) returns at
    line 157 and asks only for the reads: no upload, chown, chmod or
    reload, and the remote files stay as they are.  The environment has to
    be settled: the descriptor resolves as it did for the first call, a
    template that needs [db_pass] finds it derived already, and the
    privileged read of the remote file succeeds. *)
Theorem sync_idempotent (name : string) (w w1 : world) (r : value) :
  upload_template_and_reload registry db_pass name w = (Ok r, w1) ->
  (forall p, refuses w (ESudo (cat_command p)) = false) ->
  resolve registry (env w1) name = resolve registry (env w) name ->
  (forall t raw,
     resolve registry (env w) name = Ok t ->
     local_fs w !! local_path t = Some raw ->
     contains "%(db_pass)s" raw = true ->
     secret_settled db_pass (env w1)) ->
  exists t raw,
    resolve registry (env w) name = Ok t /\
    local_fs w !! local_path t = Some raw /\
    upload_template_and_reload registry db_pass name w1 =
    (Ok VNone,
     with_trace w1 (trace w1 ++ probe_ops (remote_fs w1) (remote_path t)
                             ++ secret_ops raw)).
Proof.
  intros Hs Hcat Hsame Hset.
  destruct (sync_inv _ _ _ _ Hs) as (_ & g & wa & Hg & Hrd & Hw1).
  destruct (gather_inv _ _ _ _ Hg) as (raw & Hres & Hraw & _ & Hfmt & _).
  destruct (gather_frame _ _ _ _ Hg) as (Hl & Hr & _ & _ & Hrf).
  exists (template g), raw. split; [exact Hres|]. split; [exact Hraw|].
  assert (Hraw' : local_fs wa !! local_path (template g) = Some raw)
    by (rewrite Hl; exact Hraw).
  assert (Hact : act g wa = (Ok r, w1)).
  { unfold upload_template_and_reload in Hs.
    rewrite (bind_ok _ _ _ _ _ Hg) in Hs. exact Hs. }
  destruct (act_frame g raw wa Hraw' Hfmt) as (He & Hl1 & Hrf1 & _).
  rewrite Hact in He, Hl1, Hrf1. simpl in He, Hl1, Hrf1.
  rewrite Hl in Hl1. rewrite Hrf in Hrf1.
  assert (Hclean :
    clean (default "" (remote_fs w1 !! remote_path (template g)))
    = clean (local_data g)).
  { destruct (String.eqb (clean (remote_data g)) (clean (local_data g))) eqn:Hc.
    - subst w1. apply String.eqb_eq in Hc. rewrite Hr, <- Hrd. exact Hc.
    - destruct Hw1 as [_ Hup]. rewrite Hup. reflexivity. }
  assert (Hsec : derive_secret db_pass raw (env w1) = Ok (env w1)).
  { unfold derive_secret.
    destruct (contains "%(db_pass)s" raw) eqn:Hm; [|reflexivity].
    destruct (Hset _ _ Hres Hraw Hm) as (v & Hv & Hdb).
    rewrite Hdb, (insert_id _ _ _ Hv). reflexivity. }
  unfold upload_template_and_reload.
  rewrite Hres in Hsame.
  assert (Hraw1 : local_fs w1 !! local_path (template g) = Some raw)
    by (rewrite Hl1; exact Hraw).
  assert (Hcat1 : refuses w1 (ESudo (cat_command (remote_path (template g)))) = false)
    by (rewrite Hrf1; apply Hcat).
  pose proof (gather_run _ _ _ _ _ Hsame Hcat1 Hraw1 Hsec) as Hg1.
  rewrite He, Hfmt, <- He in Hg1.
  rewrite (bind_ok _ _ _ _ _ Hg1).
  rewrite act_unchanged by (simpl; exact Hclean).
  reflexivity.
Qed.

(** *** [deploy] and [rollback] *)

Lemma inject_all_names (e : gmap string string) (reg inj : list (string * dict)) :
  inject_all e reg = Ok inj -> map fst inj = map fst reg.
Proof.
  revert inj. induction reg as [|[n d] reg IH]; intros inj H; simpl in H.
  - injection H as <-. reflexivity.
  - destruct (inject e d); [|discriminate H].
    destruct (inject_all e reg) as [inj'|]; [|discriminate H].
    injection H as <-. simpl. rewrite (IH inj' eq_refl). reflexivity.
Qed.

Lemma sync_frame (name : string) (w w' : world) (r : value) :
  upload_template_and_reload registry db_pass name w = (Ok r, w') ->
  repo_head w' = repo_head w /\ repo_origin w' = repo_origin w.
Proof.
  intros Hs. unfold upload_template_and_reload in Hs.
  apply bind_inv_ok in Hs as (g & w1 & Hg & Ha).
  destruct (gather_inv _ _ _ _ Hg) as (raw & _ & Hraw & _ & Hfmt & _).
  destruct (gather_frame _ _ _ _ Hg) as (Hl & _ & Hh & Ho & _).
  rewrite <- Hl in Hraw.
  destruct (act_frame g raw w1 Hraw Hfmt) as (_ & _ & _ & Hh' & Ho').
  rewrite Ha in Hh', Ho'. simpl in Hh', Ho'.
  split; congruence.
Qed.

Lemma for_each_frame (names : list string) (w w' : world) :
  for_each names (upload_template_and_reload registry db_pass) w = (Ok tt, w') ->
  repo_head w' = repo_head w /\ repo_origin w' = repo_origin w.
Proof.
  revert w. induction names as [|n names IH]; intros w H; simpl in H.
  - injection H as <-. split; reflexivity.
  - apply bind_inv_ok in H as (r & w1 & Hs & H).
    destruct (sync_frame _ _ _ _ Hs) as [Hh Ho].
    destruct (IH _ H) as [Hh' Ho']. split; congruence.
Qed.

Lemma run_inv (cwd cmd out : string) (w w' : world) :
  run cwd cmd w = (Ok out, w') ->
  refuses w (ERun cwd cmd) = false /\
  w' = shell_effect cwd cmd (with_trace w (trace w ++ [ERun cwd cmd])).
Proof.
  unfold run, attempt, emit, bind. simpl.
  destruct (refuses w (ERun cwd cmd)); [discriminate|].
  intros H. injection H as _ <-. split; reflexivity.
Qed.

Lemma run_ok (cwd cmd : string) (w : world) :
  refuses w (ERun cwd cmd) = false ->
  run cwd cmd w =
  (Ok "", shell_effect cwd cmd (with_trace w (trace w ++ [ERun cwd cmd]))).
Proof.
  intros H. unfold run, attempt, emit, bind. simpl. rewrite H. reflexivity.
Qed.

Lemma restart_inv (w w' : world) (r : value) :
  restart w = (Ok r, w') ->
  w' = with_trace w (trace w ++ restart_ops (remote_fs w) (env w)).
Proof.
  unfold restart, restart_ops, exists_, sudo, attempt, getattr, emit, ret, bind.
  simpl. destruct (remote_fs w !! "/var/run/nginx.pid"); simpl.
  - destruct (refuses w _); [discriminate|].
    intros H. injection H as _ <-. unfold with_trace. simpl.
    rewrite <- app_assoc. reflexivity.
  - destruct (env w !! "proj_name") as [pn|]; [|discriminate]. simpl.
    destruct (refuses w _); [discriminate|].
    intros H. injection H as _ <-. unfold with_trace. simpl.
    rewrite <- app_assoc. reflexivity.
Qed.

Lemma restart_frame (w : world) :
  repo_head (snd (restart w)) = repo_head w.
Proof.
  unfold restart, exists_, sudo, attempt, getattr, emit, ret, bind. simpl.
  destruct (remote_fs w !! "/var/run/nginx.pid"); simpl.
  - destruct (refuses w _); reflexivity.
  - destruct (env w !! "proj_name"); [|reflexivity]. simpl.
    destruct (refuses w _); reflexivity.
Qed.

(** [rollback] checks out the revision recorded in [last.commit]. *)
Lemma rollback_head (w : world) (proj_path rev : string) :
  env w !! "proj_path" = Some proj_path ->
  refuses w (ERun proj_path "git checkout `cat last.commit`") = false ->
  remote_fs w !! last_commit proj_path = Some rev ->
  repo_head (snd (rollback w)) = rev.
Proof.
  intros Hpath Hco Hrev.
  unfold rollback, getattr. unfold bind at 1. rewrite Hpath.
  rewrite (bind_ok _ _ _ _ _ (run_ok _ _ _ Hco)).
  unfold shell_effect. simpl. rewrite Hrev.
  match goal with
  | |- context [bind restart ?k ?x] =>
      pose proof (restart_frame x) as Hrf; unfold bind;
      destruct (restart x) as [[rv'|ex] wx]; simpl in *
  end; rewrite Hrf; reflexivity.
Qed.

Lemma for_each_synced (names : list string) (w ws : world) :
  for_each names (upload_template_and_reload registry db_pass) w = (Ok tt, ws) ->
  synced_in_turn registry db_pass names w ws.
Proof.
  revert w. induction names as [|n names IH]; intros w H; simpl in H.
  - injection H as <-. reflexivity.
  - apply bind_inv_ok in H as (r & w1 & Hs & H).
    destruct (sync_inv _ _ _ _ Hs) as [-> _].
    exists w1. split; [exact Hs | apply IH, H].
Qed.

(** C9. Order of a deploy.  A deploy that completes has, in this order:
    run [upload_template_and_reload] for every registered template; written
    the revision then checked out (still the one from before the deploy)
    to [last.commit] in the project directory; pulled [origin master]; and
    restarted.  The recorded revision is the one from before the pull, and
    it is the one a following [rollback] checks out. *)
Theorem deploy_order (w w' : world) (r : value) :
  deploy registry db_pass w = (Ok r, w') ->
  exists ws proj_path,
    synced_in_turn registry db_pass (map fst registry) w ws /\
    env ws !! "proj_path" = Some proj_path /\
    env w' = env ws /\
    repo_head ws = repo_head w /\
    trace w' =
      (trace ws ++ [ ERun proj_path "git rev-parse HEAD > last.commit";
                     ERun proj_path "git pull origin master" ]
                ++ restart_ops (remote_fs w') (env w'))%list /\
    remote_fs w' !! (proj_path ++ "/last.commit") = Some (repo_head w) /\
    repo_head w' = repo_origin w /\
    (refuses w' (ERun proj_path "git checkout `cat last.commit`") = false ->
     repo_head (snd (rollback w')) = repo_head w).
Proof.
  intros H. unfold deploy in H.
  apply bind_inv_ok in H as (inj & wi & Hinj & H).
  unfold get_templates in Hinj. injection Hinj as Hinj <-.
  rewrite (inject_all_names _ _ _ Hinj) in H.
  apply bind_inv_ok in H as ([] & ws & Hsyncs & H).
  apply bind_inv_ok in H as (pp & wp & Hpp & H).
  unfold getattr in Hpp.
  destruct (env ws !! "proj_path") as [pp'|] eqn:Hpath; [|discriminate Hpp].
  injection Hpp as -> <-.
  apply bind_inv_ok in H as (o1 & wr & Hrev & H).
  apply run_inv in Hrev as [_ ->].
  apply bind_inv_ok in H as (o2 & wq & Hpull & H).
  apply run_inv in Hpull as [_ ->].
  apply bind_inv_ok in H as (rv & wz & Hrestart & H).
  apply restart_inv in Hrestart.
  injection H as _ <-. subst wz.
  destruct (for_each_frame _ _ _ Hsyncs) as [Hh Ho].
  exists ws, pp. unfold shell_effect. simpl.
  change (pp ++ "/last.commit") with (last_commit pp).
  split; [apply for_each_synced, Hsyncs|]. split; [exact Hpath|]. split; [reflexivity|].
  split; [exact Hh|]. split; [rewrite <- !app_assoc; reflexivity|].
  split; [rewrite lookup_insert_eq, Hh; reflexivity|].
  split; [exact Ho|].
  intros Hco. rewrite <- Hh.
  apply (rollback_head _ pp); [exact Hpath | exact Hco |].
  simpl. apply lookup_insert_eq.
Qed.

End FabfileFacts.


(** ** Placeholders without a key (C6) *)

Lemma first_missing_lookup (segs : list segment) (e : gmap string string) (k : string) :
  first_missing segs e = Some k -> e !! k = None.
Proof.
  induction segs as [|x segs IH]; [discriminate|].
  destruct x as [t|k'|]; simpl; try exact IH.
  destruct (e !! k') eqn:Hk; [exact IH|].
  intros H. injection H as <-. exact Hk.
Qed.

Lemma resolve_pick (reg : list (string * dict)) (e : gmap string string)
      (name : string) :
  resolve reg e name =
  match inject_all e reg with
  | Raise x => Raise x
  | Ok injected => pick injected name
  end.
Proof. reflexivity. Qed.

Lemma inject_fields (e : gmap string string) (fields : list (string * list segment)) :
  well_formed_fields fields = true ->
  inject e (unparse_fields fields) =
  match first_missing_fields fields e with
  | Some k => Raise (KeyError k)
  | None => Ok (fill_fields fields e)
  end.
Proof.
  induction fields as [|[k segs] fields IH]; intros H; [reflexivity|].
  simpl in H. apply andb_prop in H as [Hs Hf].
  simpl. rewrite (py_format_substitute _ _ Hs). unfold substitute.
  destruct (first_missing segs e); [reflexivity|].
  rewrite (IH Hf). destruct (first_missing_fields fields e); reflexivity.
Qed.

Lemma inject_registry (e : gmap string string)
      (preg : list (string * list (string * list segment))) :
  well_formed_registry preg = true ->
  inject_all e (unparse_registry preg) =
  match first_missing_registry preg e with
  | Some k => Raise (KeyError k)
  | None => Ok (fill_registry preg e)
  end.
Proof.
  induction preg as [|[n fields] preg IH]; intros H; [reflexivity|].
  simpl in H. apply andb_prop in H as [Hf Hr].
  simpl. rewrite (inject_fields _ _ Hf).
  destruct (first_missing_fields fields e); [reflexivity|].
  rewrite (IH Hr). destruct (first_missing_registry preg e); reflexivity.
Qed.

Lemma first_missing_fields_lookup (fields : list (string * list segment))
      (e : gmap string string) (k : string) :
  first_missing_fields fields e = Some k -> e !! k = None.
Proof.
  induction fields as [|[f segs] fields IH]; [discriminate|].
  simpl. destruct (first_missing segs e) eqn:Hs; [|exact IH].
  intros H. injection H as <-. apply (first_missing_lookup _ _ _ Hs).
Qed.

Lemma first_missing_registry_lookup
      (preg : list (string * list (string * list segment)))
      (e : gmap string string) (k : string) :
  first_missing_registry preg e = Some k -> e !! k = None.
Proof.
  induction preg as [|[n fields] preg IH]; [discriminate|].
  simpl. destruct (first_missing_fields fields e) eqn:Hs; [|exact IH].
  intros H. injection H as <-. apply (first_missing_fields_lookup _ _ _ Hs).
Qed.

(** C6. Missing variable.  Patterns are made of literal text, [%%] and
    [%(key)s] placeholders.  On such a pattern [%] raises [KeyError] for
    the first placeholder whose key [env] does not hold, and otherwise
    returns the text with every placeholder replaced by the value of its
    key.  For a registry of such patterns, [get_templates] and the lookup
    of any descriptor raise the [KeyError] of the first placeholder
    without a key, in the order in which the values are formatted; when
    every placeholder has a key, the descriptor found is the one of the
    registry with all placeholders replaced.  A call whose local template
    has a placeholder without a key raises that [KeyError] after the
    reads and before any upload; otherwise the text it compares and
    uploads is the template with every placeholder replaced. *)
Theorem missing_variable_fails
        (registry : list (string * dict))
        (db_pass : gmap string string -> outcome string * gmap string string)
        (preg : list (string * list (string * list segment)))
        (segs : list segment) (e : gmap string string) :
  well_formed_registry preg = true ->
  well_formed segs = true ->
  (* the operator *)
  (forall k, first_missing segs e = Some k ->
     e !! k = None /\ py_format (unparse segs) e = Raise (KeyError k)) /\
  (first_missing segs e = None -> py_format (unparse segs) e = Ok (fill segs e)) /\
  (* resolving a descriptor *)
  (forall k name,
     first_missing_registry preg e = Some k ->
     e !! k = None /\
     inject_all e (unparse_registry preg) = Raise (KeyError k) /\
     resolve (unparse_registry preg) e name = Raise (KeyError k)) /\
  (first_missing_registry preg e = None ->
   inject_all e (unparse_registry preg) = Ok (fill_registry preg e) /\
   forall name,
     resolve (unparse_registry preg) e name = pick (fill_registry preg e) name) /\
  (* rendering the local template *)
  (forall name w t,
     resolve registry (env w) name = Ok t ->
     refuses w (ESudo (cat_command (remote_path t))) = false ->
     local_fs w !! local_path t = Some (unparse segs) ->
     derive_secret db_pass (unparse segs) (env w) = Ok e ->
     (forall k,
        first_missing segs e = Some k ->
        upload_template_and_reload registry db_pass name w =
        (Raise (KeyError k),
         World e (local_fs w) (remote_fs w) (repo_head w) (repo_origin w)
               (refuses w)
               (trace w ++ probe_ops (remote_fs w) (remote_path t)
                        ++ secret_ops (unparse segs)))) /\
     (first_missing segs e = None ->
      gather registry db_pass name w =
      (Ok (Gathered t (default "" (remote_fs w !! remote_path t)) (fill segs e)),
       World e (local_fs w) (remote_fs w) (repo_head w) (repo_origin w)
             (refuses w)
             (trace w ++ probe_ops (remote_fs w) (remote_path t)
                      ++ secret_ops (unparse segs))))).
Proof.
  intros Hreg Hwf. pose proof (py_format_substitute segs e Hwf) as Hsub.
  pose proof (inject_registry e preg Hreg) as Hinj.
  split.
  { intros k Hk. split; [apply (first_missing_lookup _ _ _ Hk)|].
    rewrite Hsub. unfold substitute. rewrite Hk. reflexivity. }
  split.
  { intros Hnone. rewrite Hsub. unfold substitute. rewrite Hnone. reflexivity. }
  split.
  { intros k name Hk. rewrite Hk in Hinj.
    split; [apply (first_missing_registry_lookup _ _ _ Hk)|].
    split; [exact Hinj|]. rewrite resolve_pick, Hinj. reflexivity. }
  split.
  { intros Hnone. rewrite Hnone in Hinj. split; [exact Hinj|].
    intros name. rewrite resolve_pick, Hinj. reflexivity. }
  intros name w t Hres Hcat Hraw Hsec.
  pose proof (gather_run _ _ _ _ _ _ _ Hres Hcat Hraw Hsec) as Hg.
  rewrite Hsub in Hg. unfold substitute in Hg.
  split.
  - intros k Hk. rewrite Hk in Hg.
    unfold upload_template_and_reload. apply bind_raise. exact Hg.
  - intros Hnone. rewrite Hnone in Hg. exact Hg.
Qed.

Lemma bind_ext {A B : Type} (m : M A) (k1 k2 : A -> M B) (w : world) :
  (forall a w', m w = (Ok a, w') -> k1 a w' = k2 a w') ->
  bind m k1 w = bind m k2 w.
Proof.
  intros H. unfold bind. destruct (m w) as [[a|x] w']; [|reflexivity].
  apply H. reflexivity.
Qed.

(** Without the marker, lines 140-154 do not look at [db_pass]. *)
Lemma gather_without_marker
      (registry : list (string * dict))
      (db_pass db_pass' : gmap string string -> outcome string * gmap string string)
      (name : string) (w : world) (t : resolved) (raw : string) :
  resolve registry (env w) name = Ok t ->
  local_fs w !! local_path t = Some raw ->
  contains "%(db_pass)s" raw = false ->
  gather registry db_pass name w = gather registry db_pass' name w.
Proof.
  intros Hres Hraw Hm. unfold gather.
  apply bind_ext. intros t' wa Ht. rewrite Hres in Ht. injection Ht as <- <-.
  apply bind_ext. intros present wb Hp.
  unfold exists_, emit, bind in Hp. injection Hp as _ <-.
  apply bind_ext. intros rd wc Hrd.
  assert (Hl : local_fs wc = local_fs w).
  { destruct present.
    - unfold sudo, attempt, emit, bind in Hrd. simpl in Hrd.
      destruct (refuses w _); [discriminate Hrd|]. injection Hrd as _ <-.
      reflexivity.
    - injection Hrd as _ <-. reflexivity. }
  apply bind_ext. intros raw' wd Hr. unfold read_local in Hr.
  rewrite Hl, Hraw in Hr. injection Hr as <- <-.
  rewrite Hm. reflexivity.
Qed.

(** C5.  [db_pass] is not defined in the fabfile.  The call looks at the
    name only when the raw local template contains "%(db_pass)s": without
    the marker the call is the same whatever [db_pass] is, bound or not.
    With the marker, line 153 is reached after the reads of the remote file
    and raises [NameError]: no secret is derived, [env] is left as it was
    (nothing is stored under [db_pass]) and nothing is uploaded. *)
Theorem db_pass_unbound
        (registry : list (string * dict)) (name : string) (w : world)
        (t : resolved) (raw : string) :
  resolve registry (env w) name = Ok t ->
  refuses w (ESudo ("cat " ++ remote_path t)) = false ->
  local_fs w !! local_path t = Some raw ->
  (contains "%(db_pass)s" raw = true ->
   upload_template_and_reload registry unbound_db_pass name w =
   (Raise (NameError "db_pass"),
    with_trace w (trace w ++ probe_ops (remote_fs w) (remote_path t) ++ [EDbPass]))) /\
  (contains "%(db_pass)s" raw = false ->
   forall db_pass,
     upload_template_and_reload registry db_pass name w =
     upload_template_and_reload registry unbound_db_pass name w).
Proof.
  intros Hres Hcat Hraw.
  change ("cat " ++ remote_path t) with (cat_command (remote_path t)) in Hcat.
  split.
  - intros Hm.
    unfold upload_template_and_reload. apply bind_raise.
    unfold gather, probe_ops.
    unfold bind at 1. rewrite Hres.
    unfold exists_, emit, bind at 2. unfold bind at 1. simpl.
    assert (Hrd :
      (if match remote_fs w !! remote_path t with Some _ => true | None => false end
       then sudo (cat_command (remote_path t)) else ret "")
        (with_trace w (trace w ++ [EExists (remote_path t)])) =
      (Ok (default "" (remote_fs w !! remote_path t)),
       with_trace w (trace w ++ EExists (remote_path t) ::
                       match remote_fs w !! remote_path t with
                       | Some _ => [ESudo (cat_command (remote_path t))]
                       | None => []
                       end))).
    { destruct (remote_fs w !! remote_path t) as [c|] eqn:Hfs.
      - unfold sudo, attempt, emit, bind. simpl. rewrite Hcat, shell_output_cat.
        simpl. rewrite Hfs, <- app_assoc. reflexivity.
      - reflexivity. }
    unfold bind at 1. rewrite Hrd.
    unfold read_local. unfold bind at 1. simpl. rewrite Hraw, Hm.
    apply bind_raise. apply bind_raise.
    unfold call_db_pass, unbound_db_pass, emit, bind, with_trace, with_env. simpl.
    rewrite <- app_assoc. reflexivity.
  - intros Hm db_pass.
    unfold upload_template_and_reload, bind.
    rewrite (gather_without_marker registry db_pass unbound_db_pass name w t raw
               Hres Hraw Hm).
    reflexivity.
Qed.

(** ** Concrete runs *)

Lemma change_detection_witness :
  gather templates fixed_db_pass "nginx" crlf_host =
    (Ok (Gathered nginx_resolved (two_lines crlf) (two_lines lf)),
     with_trace crlf_host nginx_reads) /\
  upload_template_and_reload templates fixed_db_pass "nginx" crlf_host =
    (Ok VNone, with_trace crlf_host nginx_reads).
Proof.
  assert (H : gather templates fixed_db_pass "nginx" crlf_host =
              (Ok (Gathered nginx_resolved (two_lines crlf) (two_lines lf)),
               with_trace crlf_host nginx_reads))
    by (vm_compute; reflexivity).
  split; [exact H|].
  destruct (change_detection templates fixed_db_pass _ _ _ _ H)
    as (_ & _ & _ & Hequal & _).
  apply Hequal. vm_compute. reflexivity.
Defined.

(** With [db_pass] unbound, a template with the marker stops the call after
    the reads. *)
Example marker_with_unbound_db_pass :
  upload_template_and_reload secured unbound_db_pass "app" fresh_host =
  (Raise (NameError "db_pass"), with_trace fresh_host [EExists app_path; EDbPass]).
Proof. vm_compute. reflexivity. Qed.

(** The other example of the specification: one more line locally, and the
    file is uploaded. *)
Example drift_uploaded :
  trace (snd (upload_template_and_reload templates fixed_db_pass "nginx" drifted_host)) =
  (nginx_reads ++ [EUpload nginx_path (two_lines lf);
                   ESudo "service nginx restart"])%list.
Proof. vm_compute. reflexivity. Qed.

Lemma linebreaks_inside_content_erased_witness :
  gather templates fixed_db_pass "nginx" joined_host =
    (Ok (Gathered nginx_resolved (two_lines "") (two_lines lf)),
     with_trace joined_host nginx_reads) /\
  normalize (two_lines "") = normalize (two_lines lf) /\
  two_lines "" <> two_lines lf /\
  upload_template_and_reload templates fixed_db_pass "nginx" joined_host =
    (Ok VNone, with_trace joined_host nginx_reads).
Proof.
  assert (H : gather templates fixed_db_pass "nginx" joined_host =
              (Ok (Gathered nginx_resolved (two_lines "") (two_lines lf)),
               with_trace joined_host nginx_reads))
    by (vm_compute; reflexivity).
  assert (Hn : normalize (two_lines "") = normalize (two_lines lf))
    by (vm_compute; reflexivity).
  split; [exact H|]. split; [exact Hn|]. split; [discriminate|].
  apply (linebreaks_inside_content_erased templates fixed_db_pass _ _ _ _ H Hn).
Defined.

Lemma reload_fires_once_witness :
  gather templates fixed_db_pass "nginx" drifted_host =
    (Ok (Gathered nginx_resolved "server_name example.org;" (two_lines lf)),
     with_trace drifted_host nginx_reads) /\
  exists w2,
    upload_template_and_reload templates fixed_db_pass "nginx" drifted_host =
      (Ok VNone, w2) /\
    trace w2 = (nginx_reads ++ [EUpload nginx_path (two_lines lf);
                                ESudo "service nginx restart"])%list.
Proof.
  assert (H : gather templates fixed_db_pass "nginx" drifted_host =
              (Ok (Gathered nginx_resolved "server_name example.org;" (two_lines lf)),
               with_trace drifted_host nginx_reads))
    by (vm_compute; reflexivity).
  split; [exact H|].
  destruct (reload_fires_once templates fixed_db_pass _ _ _ _
              "service nginx restart" H eq_refl)
    as (_ & _ & Hdiff); [discriminate | intros ev _; reflexivity |].
  apply Hdiff. vm_compute. discriminate.
Defined.

Lemma owner_and_mode_after_upload_witness :
  gather owned unbound_db_pass "app" strict_host =
    (Ok (Gathered (Resolved "deploy/supervisor.conf" "/srv/blog/app.conf"
                            (Some "service app reload") (Some "www-data")
                            (Some "640"))
                  "" "[program:blog]"),
     with_trace strict_host [EExists "/srv/blog/app.conf"]) /\
  exists w2,
    upload_template_and_reload owned unbound_db_pass "app" strict_host =
      (Raise (SystemExit (ESudo "chmod 640 /srv/blog/app.conf")), w2) /\
    remote_fs w2 !! "/srv/blog/app.conf" = Some "[program:blog]" /\
    trace w2 = [EExists "/srv/blog/app.conf";
                EUpload "/srv/blog/app.conf" "[program:blog]";
                ESudo "chown www-data /srv/blog/app.conf";
                ESudo "chmod 640 /srv/blog/app.conf"].
Proof.
  assert (H : gather owned unbound_db_pass "app" strict_host =
    (Ok (Gathered (Resolved "deploy/supervisor.conf" "/srv/blog/app.conf"
                            (Some "service app reload") (Some "www-data")
                            (Some "640"))
                  "" "[program:blog]"),
     with_trace strict_host [EExists "/srv/blog/app.conf"]))
    by (vm_compute; reflexivity).
  split; [exact H|].
  destruct (owner_and_mode_after_upload owned unbound_db_pass _ _ _ _ H)
    as (_ & _ & _ & Hdiff).
  destruct Hdiff as (_ & _ & Hchmod & _); [vm_compute; discriminate|].
  assert (Hown : forall ev,
            In ev [ESudo "chown www-data /srv/blog/app.conf"] ->
            refuses strict_host ev = false)
    by (intros ev [<-|[]]; reflexivity).
  destruct (Hchmod eq_refl Hown "640" eq_refl ltac:(discriminate) eq_refl)
    as (w2 & H1 & H2 & H3).
  exists w2. split; [exact H1|]. split; [exact H2 | exact H3].
Defined.

(** C7, as stated, fails here: the remote path does not exist, the call
    completes, nothing is uploaded and the file still does not exist. *)
Lemma empty_template_not_uploaded :
  remote_fs empty_template_host !! nginx_path = None /\
  upload_template_and_reload templates fixed_db_pass "nginx" empty_template_host =
    (Ok VNone, with_trace empty_template_host [EExists nginx_path]) /\
  remote_fs (with_trace empty_template_host [EExists nginx_path]) !! nginx_path = None.
Proof. vm_compute. repeat split; reflexivity. Qed.

Lemma first_deploy_witness :
  gather templates fixed_db_pass "nginx" fresh_host =
    (Ok (Gathered nginx_resolved "" nginx_one_line),
     with_trace fresh_host [EExists nginx_path]) /\
  remote_fs fresh_host !! nginx_path = None /\
  exists w2,
    upload_template_and_reload templates fixed_db_pass "nginx" fresh_host =
      (Ok VNone, w2) /\
    remote_fs w2 !! nginx_path = Some nginx_one_line /\
    trace w2 = [EExists nginx_path; EUpload nginx_path nginx_one_line;
                ESudo "service nginx restart"].
Proof.
  assert (H : gather templates fixed_db_pass "nginx" fresh_host =
    (Ok (Gathered nginx_resolved "" nginx_one_line),
     with_trace fresh_host [EExists nginx_path]))
    by (vm_compute; reflexivity).
  split; [exact H|]. split; [reflexivity|].
  destruct (first_deploy templates fixed_db_pass _ _ _ _ H eq_refl)
    as (_ & _ & Hup).
  apply Hup; [vm_compute; discriminate | intros ev _; reflexivity].
Defined.

(** C3, as stated, fails: the call that overwrites an existing file and the
    call that creates the file both upload and both return [None], so no
    reading of the returned value tells [Uploaded] from [Created]. *)
Lemma sync_result_not_returned :
  remote_fs drifted_host !! nginx_path = Some nginx_one_line /\
  remote_fs fresh_host !! nginx_path = None /\
  In (EUpload nginx_path (two_lines lf))
     (trace (snd (upload_template_and_reload templates fixed_db_pass "nginx"
                                             drifted_host))) /\
  In (EUpload nginx_path nginx_one_line)
     (trace (snd (upload_template_and_reload templates fixed_db_pass "nginx"
                                             fresh_host))) /\
  ~ exists decode : value -> SyncResult,
      (forall r, fst (upload_template_and_reload templates fixed_db_pass "nginx"
                                                 drifted_host) = Ok r ->
                 decode r = Uploaded) /\
      (forall r, fst (upload_template_and_reload templates fixed_db_pass "nginx"
                                                 fresh_host) = Ok r ->
                 decode r = Created).
Proof.
  split; [reflexivity|]. split; [reflexivity|].
  split; [vm_compute; tauto|]. split; [vm_compute; tauto|].
  intros (decode & Hup & Hcr).
  specialize (Hup VNone ltac:(vm_compute; reflexivity)).
  specialize (Hcr VNone ltac:(vm_compute; reflexivity)).
  congruence.
Qed.

Lemma sync_returns_none_witness :
  upload_template_and_reload templates fixed_db_pass "nginx" drifted_host =
    (Ok VNone, drifted_after) /\
  exists g w1,
    gather templates fixed_db_pass "nginx" drifted_host = (Ok g, w1) /\
    remote_data g = default "" (remote_fs drifted_host !! remote_path (template g)) /\
    if String.eqb (clean (remote_data g)) (clean (local_data g))
    then drifted_after = w1
    else trace drifted_after = (trace w1 ++ changes g)%list /\
         remote_fs drifted_after !! remote_path (template g) = Some (local_data g).
Proof.
  assert (H : upload_template_and_reload templates fixed_db_pass "nginx" drifted_host =
              (Ok VNone, drifted_after))
    by (vm_compute; reflexivity).
  split; [exact H|].
  apply (sync_returns_none templates fixed_db_pass _ _ _ _ H).
Defined.

Lemma sync_idempotent_witness :
  upload_template_and_reload secured fixed_db_pass "app" fresh_host =
    (Ok VNone, app_after_first) /\
  exists t raw,
    resolve secured (env fresh_host) "app" = Ok t /\
    local_fs fresh_host !! local_path t = Some raw /\
    upload_template_and_reload secured fixed_db_pass "app" app_after_first =
      (Ok VNone,
       with_trace app_after_first
         (trace app_after_first
            ++ probe_ops (remote_fs app_after_first) (remote_path t)
            ++ secret_ops raw)).
Proof.
  assert (H : upload_template_and_reload secured fixed_db_pass "app" fresh_host =
              (Ok VNone, app_after_first))
    by (vm_compute; reflexivity).
  split; [exact H|].
  apply (sync_idempotent secured fixed_db_pass _ _ _ _ H).
  - intros p. reflexivity.
  - vm_compute. reflexivity.
  - intros t raw _ _ _. exists "s3cret". split; vm_compute; reflexivity.
Defined.

Lemma db_pass_unbound_witness :
  resolve secured (env fresh_host) "app" =
    Ok (Resolved "deploy/app.conf" "/srv/blog/app.conf" (Some "service app reload")
                 (Some "www-data") (Some "640")) /\
  local_fs fresh_host !! "deploy/app.conf" =
    Some "host=%(live_host)s password=%(db_pass)s" /\
  upload_template_and_reload secured unbound_db_pass "app" fresh_host =
    (Raise (NameError "db_pass"),
     with_trace fresh_host [EExists "/srv/blog/app.conf"; EDbPass]) /\
  env fresh_host !! "db_pass" = None /\
  remote_fs fresh_host !! "/srv/blog/app.conf" = None.
Proof.
  assert (Hres : resolve secured (env fresh_host) "app" =
    Ok (Resolved "deploy/app.conf" "/srv/blog/app.conf" (Some "service app reload")
                 (Some "www-data") (Some "640")))
    by (vm_compute; reflexivity).
  assert (Hraw : local_fs fresh_host !! "deploy/app.conf" =
                 Some "host=%(live_host)s password=%(db_pass)s")
    by (vm_compute; reflexivity).
  split; [exact Hres|]. split; [exact Hraw|].
  destruct (db_pass_unbound secured "app" fresh_host _ _ Hres eq_refl Hraw)
    as [Hmarker _].
  split; [apply Hmarker; reflexivity|].
  split; vm_compute; reflexivity.
Defined.

Lemma missing_variable_fails_witness :
  well_formed_registry templates_parsed = true /\
  well_formed nginx_pattern = true /\
  unparse_registry templates_parsed = templates /\
  py_format "/etc/nginx/sites-enabled/%(live_host)s.conf" site_env =
    Ok "/etc/nginx/sites-enabled/example.org.conf" /\
  py_format "/etc/nginx/sites-enabled/%(live_host)s.conf"
            (delete "live_host" site_env) =
    Raise (KeyError "live_host") /\
  inject_all (delete "live_host" site_env) templates = Raise (KeyError "live_host") /\
  resolve templates (delete "live_host" site_env) "supervisor" =
    Raise (KeyError "live_host") /\
  resolve templates site_env "supervisor" =
    Ok (Resolved "deploy/supervisor.conf" "/etc/supervisor/conf.d/blog.conf"
                 (Some "supervisorctl reload") None None).
Proof.
  assert (Hreg : well_formed_registry templates_parsed = true) by reflexivity.
  assert (Hwf : well_formed nginx_pattern = true) by reflexivity.
  split; [exact Hreg|]. split; [exact Hwf|]. split; [reflexivity|].
  destruct (missing_variable_fails templates unbound_db_pass templates_parsed
              nginx_pattern site_env Hreg Hwf) as (_ & Hfill & _ & Hok & _).
  destruct (missing_variable_fails templates unbound_db_pass templates_parsed
              nginx_pattern (delete "live_host" site_env) Hreg Hwf)
    as (Hmiss & _ & Hbad & _).
  split; [apply Hfill; vm_compute; reflexivity|].
  split; [apply (Hmiss "live_host"); vm_compute; reflexivity|].
  destruct (Hbad "live_host" "supervisor" ltac:(vm_compute; reflexivity))
    as (_ & Hinj & Hres).
  split; [exact Hinj|]. split; [exact Hres|].
  destruct (Hok ltac:(vm_compute; reflexivity)) as [_ Hpick].
  change templates with (unparse_registry templates_parsed).
  rewrite Hpick. vm_compute. reflexivity.
Defined.

Lemma deploy_order_witness :
  deploy templates unbound_db_pass fresh_host = (Ok (VBool true), deployed) /\
  trace deployed =
    [ EExists "/etc/nginx/sites-enabled/example.org.conf";
      EUpload "/etc/nginx/sites-enabled/example.org.conf" "server_name example.org;";
      ESudo "service nginx restart";
      EExists "/etc/supervisor/conf.d/blog.conf";
      EUpload "/etc/supervisor/conf.d/blog.conf" "[program:blog]";
      ESudo "supervisorctl reload";
      ERun "/home/deploy/blog" "git rev-parse HEAD > last.commit";
      ERun "/home/deploy/blog" "git pull origin master";
      EExists "/var/run/nginx.pid"; ESudo "supervisorctl start blog:nginx" ] /\
  remote_fs deployed !! "/home/deploy/blog/last.commit" = Some "rev1" /\
  repo_head deployed = "rev2" /\
  repo_head (snd (rollback deployed)) = "rev1" /\
  exists ws proj_path,
    synced_in_turn templates unbound_db_pass ["nginx"; "supervisor"] fresh_host ws /\
    env ws !! "proj_path" = Some proj_path /\
    env deployed = env ws /\
    repo_head ws = repo_head fresh_host /\
    trace deployed =
      (trace ws ++ [ ERun proj_path "git rev-parse HEAD > last.commit";
                     ERun proj_path "git pull origin master" ]
                ++ restart_ops (remote_fs deployed) (env deployed))%list /\
    remote_fs deployed !! (proj_path ++ "/last.commit") = Some (repo_head fresh_host) /\
    repo_head deployed = repo_origin fresh_host /\
    (refuses deployed (ERun proj_path "git checkout `cat last.commit`") = false ->
     repo_head (snd (rollback deployed)) = repo_head fresh_host).
Proof.
  assert (H : deploy templates unbound_db_pass fresh_host = (Ok (VBool true), deployed))
    by (vm_compute; reflexivity).
  split; [exact H|].
  split; [vm_compute; reflexivity|]. split; [vm_compute; reflexivity|].
  split; [vm_compute; reflexivity|]. split; [vm_compute; reflexivity|].
  apply (deploy_order templates unbound_db_pass _ _ _ H).
Defined.

(** The run above, spelled out. *)
Example deploy_trace :
  trace deployed =
  [ EExists nginx_path; EUpload nginx_path nginx_one_line;
    ESudo "service nginx restart";
    EExists "/etc/supervisor/conf.d/blog.conf";
    EUpload "/etc/supervisor/conf.d/blog.conf" "[program:blog]";
    ESudo "supervisorctl reload";
    ERun "/home/deploy/blog" "git rev-parse HEAD > last.commit";
    ERun "/home/deploy/blog" "git pull origin master";
    EExists "/var/run/nginx.pid"; ESudo "supervisorctl start blog:nginx" ] /\
  repo_head deployed = "rev2" /\
  repo_head (snd (rollback deployed)) = "rev1".
Proof. vm_compute. repeat split; reflexivity. Qed.

(** ** The other tasks: [remove], [install], [create], [all] *)

Lemma sudo_ok (cmd : string) (w : world) :
  refuses w (ESudo cmd) = false ->
  sudo cmd w =
  (Ok (shell_output (remote_fs w) cmd), with_trace w (trace w ++ [ESudo cmd])).
Proof.
  intros H. unfold sudo, attempt, emit, bind. simpl. rewrite H. reflexivity.
Qed.

Lemma sudo_inv (cmd out : string) (w w' : world) :
  sudo cmd w = (Ok out, w') ->
  refuses w (ESudo cmd) = false /\ w' = with_trace w (trace w ++ [ESudo cmd]).
Proof.
  unfold sudo, attempt, emit, bind. simpl.
  destruct (refuses w (ESudo cmd)); [discriminate|].
  intros H. injection H as _ <-. split; reflexivity.
Qed.

(** One step of a run on a host that refuses nothing. *)
Ltac step_sudo Hok :=
  match goal with
  | |- context [bind (sudo ?c) ?k ?x] =>
      rewrite (bind_ok (sudo c) k x _ _ (sudo_ok c x (Hok _)))
  end.
Ltac step_run Hok :=
  match goal with
  | |- context [bind (run ?d ?c) ?k ?x] =>
      rewrite (bind_ok (run d c) k x _ _ (run_ok d c x (Hok _)))
  end.

Lemma remove_each_inv (ds : list dict) (w w' : world) (u : unit) :
  remove_each ds w = (Ok u, w') ->
  Forall (fun t => dict_get t "remote_path" <> None) ds /\
  w' = with_trace w (trace w ++ remove_ops (remote_fs w) ds).
Proof.
  revert w. induction ds as [|t ds IH]; intros w H; simpl in H.
  - injection H as _ <-. split; [constructor|].
    unfold with_trace. simpl. rewrite app_nil_r. destruct w; reflexivity.
  - apply bind_inv_ok in H as (p & w1 & Hp & H).
    unfold lift, getitem in Hp.
    destruct (dict_get t "remote_path") as [p'|] eqn:Hget; [|discriminate Hp].
    injection Hp as -> <-.
    apply bind_inv_ok in H as (present & w2 & He & H).
    unfold exists_, emit, bind in He. injection He as He <-.
    apply bind_inv_ok in H as (o & w3 & Hrm & H).
    simpl in He. simpl. rewrite Hget.
    destruct (remote_fs w !! p) as [c|] eqn:Hfs; subst present.
    + apply sudo_inv in Hrm as [_ ->].
      destruct (IH _ H) as [Hall ->].
      split; [constructor; [congruence | exact Hall]|].
      unfold with_trace. simpl. rewrite <- !app_assoc. reflexivity.
    + injection Hrm as _ <-.
      destruct (IH _ H) as [Hall ->].
      split; [constructor; [congruence | exact Hall]|].
      unfold with_trace. simpl. rewrite <- !app_assoc. reflexivity.
Qed.

Lemma rm_in_remove_ops (fs : gmap string string) (ds : list dict) (p : string) :
  Forall (fun t => dict_get t "remote_path" <> None) ds ->
  In (ESudo (rm_command p)) (remove_ops fs ds) <->
  exists t, In t ds /\ dict_get t "remote_path" = Some p /\ fs !! p <> None.
Proof.
  intros Hall. induction Hall as [|t ds Ht Hall IH]; simpl.
  - split; [intros [] | intros (t & [] & _)].
  - destruct (dict_get t "remote_path") as [q|] eqn:Hq; [|congruence].
    split.
    + intros [Hin|Hin]; [discriminate Hin|].
      apply in_app_or in Hin as [Hin|Hin].
      * destruct (fs !! q) eqn:Hfs; [|destruct Hin].
        destruct Hin as [Heq|[]]. injection Heq as Heq.
        change (q = p) in Heq. subst q.
        exists t. split; [left; reflexivity|]. split; [exact Hq | congruence].
      * apply IH in Hin as (t' & Hin & Hp & Hfs).
        exists t'. split; [right; exact Hin | split; assumption].
    + intros (t' & [<-|Hin] & Hp & Hfs).
      * rewrite Hq in Hp. injection Hp as ->. right. apply in_or_app. left.
        destruct (fs !! p); [left; reflexivity | congruence].
      * right. apply in_or_app. right. apply IH.
        exists t'. split; [exact Hin | split; assumption].
Qed.

Lemma exists_in_remove_ops (fs : gmap string string) (ds : list dict) (p : string) :
  Forall (fun t => dict_get t "remote_path" <> None) ds ->
  In (EExists p) (remove_ops fs ds) <-> In p (remote_paths ds).
Proof.
  intros Hall. induction Hall as [|t ds Ht Hall IH]; simpl; [tauto|].
  destruct (dict_get t "remote_path") as [q|] eqn:Hq; [|congruence].
  simpl. split.
  - intros [Heq|Hin]; [injection Heq as ->; left; reflexivity|].
    apply in_app_or in Hin as [Hin|Hin].
    + destruct (fs !! q); [destruct Hin as [Hin|[]]; discriminate Hin | destruct Hin].
    + right. apply IH, Hin.
  - intros [->|Hin]; [left; reflexivity|].
    right. apply in_or_app. right. apply IH, Hin.
Qed.

Lemma remove_ops_kinds (fs : gmap string string) (ds : list dict) (ev : event) :
  In ev (remove_ops fs ds) ->
  exists p, In p (remote_paths ds) /\ (ev = EExists p \/ ev = ESudo ("rm " ++ p)).
Proof.
  induction ds as [|t ds IH]; simpl; [tauto|].
  destruct (dict_get t "remote_path") as [q|]; [|intros []].
  intros [<-|Hin].
  - exists q. split; [left; reflexivity | left; reflexivity].
  - apply in_app_or in Hin as [Hin|Hin].
    + destruct (fs !! q); [|destruct Hin]. destruct Hin as [<-|[]].
      exists q. split; [left; reflexivity | right; reflexivity].
    + destruct (IH Hin) as (p & Hp & Hev).
      exists p. split; [right; exact Hp | exact Hev].
Qed.

Lemma remote_paths_In (ds : list dict) (p : string) :
  In p (remote_paths ds) <->
  exists t, In t ds /\ dict_get t "remote_path" = Some p.
Proof.
  induction ds as [|t ds IH]; simpl.
  - split; [tauto | intros (t & [] & _)].
  - destruct (dict_get t "remote_path") as [q|] eqn:Hq; simpl.
    + split.
      * intros [->|Hin]; [exists t; split; [left; reflexivity | exact Hq]|].
        apply IH in Hin as (t' & Hin & Hp). exists t'. split; [right|]; assumption.
      * intros (t' & [<-|Hin] & Hp); [left; congruence|].
        right. apply IH. exists t'. split; assumption.
    + split.
      * intros Hin. apply IH in Hin as (t' & Hin & Hp).
        exists t'. split; [right|]; assumption.
      * intros (t' & [<-|Hin] & Hp); [congruence|].
        apply IH. exists t'. split; assumption.
Qed.

(** X1. [remove] over descriptors whose remote paths are distinct (so that
    an [rm] cannot change what a later probe finds): a run that completes
    has probed the remote path of every registered descriptor, has asked
    for [rm path] exactly for the registered paths where a file existed,
    and has asked for nothing else; it returns [None]. *)
Theorem remove_only_existing (registry injected : list (string * dict))
        (w w' : world) (r : value) :
  inject_all (env w) registry = Ok injected ->
  List.NoDup (remote_paths (map snd injected)) ->
  remove registry w = (Ok r, w') ->
  r = VNone /\
  exists asked,
    trace w' = (trace w ++ asked)%list /\
    (forall p, In (EExists p) asked <-> In p (remote_paths (map snd injected))) /\
    (forall p,
       In (ESudo ("rm " ++ p)) asked <->
       In p (remote_paths (map snd injected)) /\ remote_fs w !! p <> None) /\
    (forall ev, In ev asked ->
       exists p, In p (remote_paths (map snd injected)) /\
                 (ev = EExists p \/ ev = ESudo ("rm " ++ p))).
Proof.
  intros Hinj _ H. unfold remove in H.
  apply bind_inv_ok in H as (inj & w1 & Hinj' & H).
  unfold get_templates in Hinj'. injection Hinj' as Hinj' <-.
  rewrite Hinj in Hinj'. injection Hinj' as <-.
  apply bind_inv_ok in H as (u & w2 & Hrm & H).
  injection H as <- <-.
  destruct (remove_each_inv _ _ _ _ Hrm) as [Hall ->].
  split; [reflexivity|].
  exists (remove_ops (remote_fs w) (map snd injected)).
  split; [reflexivity|]. split; [|split].
  - intros p. apply exists_in_remove_ops, Hall.
  - intros p. change ("rm " ++ p) with (rm_command p).
    rewrite (rm_in_remove_ops _ _ p Hall), remote_paths_In.
    split.
    + intros (t & Hin & Hp & Hfs). split; [exists t; split; assumption | exact Hfs].
    + intros [(t & Hin & Hp) Hfs]. exists t. split; [exact Hin | split; assumption].
  - intros ev. apply remove_ops_kinds.
Qed.

(** X2. [install] on a host where every operation succeeds: it reads
    /etc/default/locale and asks for [update-locale] and a run of [exit]
    exactly when the text "LC_ALL=" followed by [env.locale] occurs nowhere
    in what was read (a substring test, line 187: the text counts wherever
    it stands, also inside a longer word or a comment); it then updates the
    package index and installs the three packages, and returns [True]. *)
Theorem install_sets_locale_when_missing (w : world) (loc current : string) :
  env w !! "locale" = Some loc ->
  remote_fs w !! "/etc/default/locale" = Some current ->
  (forall ev, refuses w ev = false) ->
  install w =
  (Ok (VBool true),
   with_trace w
     (trace w ++ ESudo "cat /etc/default/locale" ::
        (if contains ("LC_ALL=" ++ loc) current then []
         else [ESudo ("update-locale LC_ALL=" ++ loc); ERun "" "exit"]) ++
        [ESudo "apt-get update -y -q";
         ESudo "apt-get install -y -q nginx supervisor git-core"])).
Proof.
  intros Hloc Hcur Hok.
  unfold install, getattr. unfold bind at 1. rewrite Hloc.
  step_sudo Hok.
  change "cat /etc/default/locale" with (cat_command "/etc/default/locale").
  rewrite shell_output_cat. simpl remote_fs. rewrite Hcur. simpl default.
  destruct (contains ("LC_ALL=" ++ loc) current); simpl negb; cbv iota.
  - unfold bind at 1. unfold ret at 1.
    step_sudo Hok. unfold apt. step_sudo Hok.
    unfold ret, with_trace. simpl. rewrite <- !app_assoc. reflexivity.
  - unfold bind at 1. step_sudo Hok. step_run Hok.
    unfold ret at 1. unfold shell_effect. simpl String.eqb. cbv iota.
    step_sudo Hok. unfold apt. step_sudo Hok.
    unfold ret, with_trace. simpl. rewrite <- !app_assoc. reflexivity.
Qed.

Lemma shell_effect_clone (cwd rest : string) (w : world) :
  shell_effect cwd ("git clone " ++ rest) w = w.
Proof.
  unfold shell_effect.
  change ("git clone " ++ rest)
    with (String "g" (String "i" (String "t" (String " " (String "c"
            ("lone " ++ rest)))))).
  reflexivity.
Qed.

Lemma create_run (w : world) (repo_url proj_path : string) :
  env w !! "repo_url" = Some repo_url ->
  env w !! "proj_path" = Some proj_path ->
  create w =
  (if refuses w (ERun "" ("git clone " ++ repo_url ++ " " ++ proj_path))
   then Raise (SystemExit (ERun "" ("git clone " ++ repo_url ++ " " ++ proj_path)))
   else Ok (VBool true),
   with_trace w (trace w ++ [ERun "" ("git clone " ++ repo_url ++ " " ++ proj_path)])).
Proof.
  intros Hrepo Hpath. unfold create, getattr.
  unfold bind at 1. rewrite Hrepo. unfold bind at 1. rewrite Hpath.
  destruct (refuses w _) eqn:Hr.
  - apply bind_raise. unfold run, attempt, emit, bind. simpl. rewrite Hr.
    reflexivity.
  - rewrite (bind_ok _ _ _ _ _ (run_ok _ _ _ Hr)), shell_effect_clone.
    reflexivity.
Qed.

(** X3. [all] runs [install], then [create], then [deploy].  [create]
    returns [True] whenever it returns, so the test at line 274 never skips
    the deploy: the deploy is left out only when the clone fails, and then
    the run aborts right after asking for it.  [all] itself returns
    [None]. *)
Theorem all_runs_deploy_after_create
        (registry : list (string * dict))
        (db_pass : gmap string string -> outcome string * gmap string string)
        (w w1 : world) (v : value) (repo_url proj_path : string) :
  install w = (Ok v, w1) ->
  env w1 !! "repo_url" = Some repo_url ->
  env w1 !! "proj_path" = Some proj_path ->
  let clone := ERun "" ("git clone " ++ repo_url ++ " " ++ proj_path) in
  let w2 := with_trace w1 (trace w1 ++ [clone]) in
  (refuses w1 clone = true ->
   all_ registry db_pass w = (Raise (SystemExit clone), w2)) /\
  (refuses w1 clone = false ->
   all_ registry db_pass w =
   (match fst (deploy registry db_pass w2) with
    | Ok _ => Ok VNone
    | Raise x => Raise x
    end,
    snd (deploy registry db_pass w2))).
Proof.
  intros Hi Hrepo Hpath clone w2.
  unfold all_. rewrite (bind_ok _ _ _ _ _ Hi).
  pose proof (create_run w1 repo_url proj_path Hrepo Hpath) as Hc.
  fold clone in Hc. fold w2 in Hc.
  split; intros Hr; rewrite Hr in Hc.
  - apply bind_raise, Hc.
  - rewrite (bind_ok _ _ _ _ _ Hc). unfold value_true, bind, ret.
    destruct (deploy registry db_pass w2) as [[r|x] w3]; reflexivity.
Qed.

(** ** Configuration *)

Lemma after_last_sep_no_sep (acc name : string) :
  has_char "/" name = false ->
  after_last_sep acc name = acc ++ name.
Proof.
  revert acc. induction name as [|c name IH]; intros acc H.
  - rewrite append_nil_r. reflexivity.
  - simpl in H. apply orb_false_elim in H as [Hc Hn].
    simpl. rewrite Hc, (IH _ Hn), snoc_append. reflexivity.
Qed.

Lemma after_last_sep_path (acc dir name : string) :
  has_char "/" name = false ->
  after_last_sep acc (dir ++ String "/" name) = name.
Proof.
  revert acc. induction dir as [|c dir IH]; intros acc H.
  - rewrite append_nil_l. simpl. rewrite (after_last_sep_no_sep _ _ H).
    reflexivity.
  - rewrite append_cons. simpl. destruct (Ascii.eqb c "/"); apply IH, H.
Qed.

(** X4. The last path component: for a name without '/', the component
    after the last '/' of [dir/name] is [name], and of [name] alone is
    [name]; so the start-up test of line 18 sees "fab" whatever directory
    the program was started from. *)
Theorem last_component_of_path (dir name : string) :
  has_char "/" name = false ->
  last_component (dir ++ String "/" name) = name /\
  last_component name = name /\
  (name = "fab" ->
   forall module, load_conf (dir ++ String "/" name) module = load_conf "fab" module).
Proof.
  intros H. unfold last_component.
  assert (H1 : after_last_sep "" (dir ++ String "/" name) = name)
    by apply (after_last_sep_path _ _ _ H).
  assert (H2 : after_last_sep "" name = name)
    by (rewrite (after_last_sep_no_sep _ _ H); reflexivity).
  split; [exact H1|]. split; [exact H2|].
  intros -> module. unfold load_conf, last_component. rewrite H1. reflexivity.
Qed.

(** X5. Start-up, run as [fab].  [conf] is loaded exactly when the settings
    module has a [FABRIC] dictionary whose [HOSTS] list is not empty.  A
    missing module and a missing [FABRIC] attribute are caught at line 26,
    and a missing [HOSTS] key is turned into an [ImportError] by line 25
    and caught there too: all three end with the abort message.  An empty
    [HOSTS] list raises an [IndexError], which neither handler names: it is
    the only exception that leaves the [try] statement.  After a load,
    [live_host] is [LIVE_HOSTNAME] if set, else the first host. *)
Theorem startup_needs_a_host (argv0 : string) (module : option (option settings)) :
  last_component argv0 = "fab" ->
  (forall conf,
     load_conf argv0 module = Loaded conf <->
     module = Some (Some conf) /\ exists h hs, HOSTS conf = Some (h :: hs)) /\
  (forall x,
     load_conf argv0 module = Uncaught x <->
     x = IndexError /\
     exists conf, module = Some (Some conf) /\ HOSTS conf = Some []) /\
  (load_conf argv0 module = Aborted <->
   module = None \/ module = Some None \/
   exists conf, module = Some (Some conf) /\ HOSTS conf = None) /\
  (forall conf,
     load_conf argv0 module = Loaded conf ->
     exists h hs, HOSTS conf = Some (h :: hs) /\
                  live_host_text conf = default h (LIVE_HOSTNAME conf)).
Proof.
  intros Hfab. unfold load_conf. rewrite Hfab.
  change (String.eqb "fab" "fab") with true. cbv iota.
  unfold guarded_import, import_fabric, check_hosts, first_host.
  assert (Hload : forall conf,
    guarded_import module = Loaded conf <->
    module = Some (Some conf) /\ exists h hs, HOSTS conf = Some (h :: hs)).
  { intros conf.
    unfold guarded_import, import_fabric, check_hosts, first_host.
    destruct module as [[c|]|]; cbn.
    - destruct (HOSTS c) as [[|h hs]|] eqn:Hh; cbn.
      + split; [discriminate|]. intros [Hm (h & hs & Hc)].
        injection Hm as ->. congruence.
      + split.
        * intros H. injection H as <-. split; [reflexivity|]. eauto.
        * intros [Hm _]. injection Hm as ->. reflexivity.
      + split; [discriminate|]. intros [Hm (h & hs & Hc)].
        injection Hm as ->. congruence.
    - split; [discriminate | intros [Hm _]; discriminate Hm].
    - split; [discriminate | intros [Hm _]; discriminate Hm]. }
  split; [exact Hload|]. split; [|split].
  - intros x. destruct module as [[c|]|]; cbn.
    + destruct (HOSTS c) as [[|h hs]|] eqn:Hh; cbn.
      * split.
        -- intros H. injection H as <-. split; [reflexivity|]. eauto.
        -- intros [-> _]. reflexivity.
      * split; [discriminate|]. intros (_ & c' & Hm & Hc). injection Hm as <-.
        congruence.
      * split; [discriminate|]. intros (_ & c' & Hm & Hc). injection Hm as <-.
        congruence.
    + split; [discriminate | intros (_ & c' & Hm & _); discriminate Hm].
    + split; [discriminate | intros (_ & c' & Hm & _); discriminate Hm].
  - destruct module as [[c|]|]; cbn.
    + destruct (HOSTS c) as [[|h hs]|] eqn:Hh; cbn.
      * split; [discriminate|].
        intros [Hm|[Hm|(c' & Hm & Hc)]]; try discriminate Hm.
        injection Hm as <-. congruence.
      * split; [discriminate|].
        intros [Hm|[Hm|(c' & Hm & Hc)]]; try discriminate Hm.
        injection Hm as <-. congruence.
      * split; [eauto|reflexivity].
    + split; [auto | reflexivity].
    + split; [auto | reflexivity].
  - intros conf Hl. apply Hload in Hl as [_ (h & hs & Hh)].
    exists h, hs. split; [exact Hh|].
    unfold live_host_text. rewrite Hh. simpl.
    destruct (LIVE_HOSTNAME conf); reflexivity.
Qed.

Lemma configure_lookups (hosts_text : list string -> string) (conf : settings)
      (login cwd : string) (base : gmap string string) :
  let e := configure hosts_text conf login cwd base in
  e !! "live_host" = Some (live_host_text conf) /\
  e !! "proj_name" = Some (default (last_component cwd) (PROJECT_NAME conf)) /\
  e !! "proj_path" =
    Some ("/home/" ++ default login (SSH_USER conf) ++ "/"
                   ++ default (last_component cwd) (PROJECT_NAME conf)) /\
  e !! "locale" = Some (default "en_US.UTF-8" (LOCALE conf)) /\
  e !! "repo_url" = Some (text_or_none (REPO_URL conf)).
Proof.
  unfold configure. cbv zeta.
  repeat split; simplify_map_eq; reflexivity.
Qed.

(** X6. With the environment of lines 30-40, whatever the settings, the
    login name and the working directory, [get_templates] succeeds on the
    registry of line 51: the nginx file goes to
    /etc/nginx/sites-enabled/<live_host>.conf, the supervisor file to
    /etc/supervisor/conf.d/<proj_name>.conf, and the other fields are as
    written.  The project path is /home/<user>/<proj_name>. *)
Theorem configured_templates_resolve
        (hosts_text : list string -> string) (conf : settings)
        (login cwd : string) (base : gmap string string) :
  let e := configure hosts_text conf login cwd base in
  inject_all e templates =
  Ok [ ("nginx",
        [ ("local_path", "deploy/nginx.conf");
          ("remote_path",
           "/etc/nginx/sites-enabled/" ++ live_host_text conf ++ ".conf");
          ("reload_command", "service nginx restart") ]);
       ("supervisor",
        [ ("local_path", "deploy/supervisor.conf");
          ("remote_path",
           "/etc/supervisor/conf.d/"
             ++ default (last_component cwd) (PROJECT_NAME conf) ++ ".conf");
          ("reload_command", "supervisorctl reload") ]) ] /\
  e !! "proj_path" =
    Some ("/home/" ++ default login (SSH_USER conf) ++ "/"
                   ++ default (last_component cwd) (PROJECT_NAME conf)).
Proof.
  intros e.
  destruct (configure_lookups hosts_text conf login cwd base)
    as (Hlive & Hname & Hpath & _).
  fold e in Hlive, Hname, Hpath. split; [|exact Hpath].
  assert (Hn : py_format "/etc/nginx/sites-enabled/%(live_host)s.conf" e =
               Ok ("/etc/nginx/sites-enabled/" ++ live_host_text conf ++ ".conf")).
  { change "/etc/nginx/sites-enabled/%(live_host)s.conf"
      with (unparse [Lit "/etc/nginx/sites-enabled/"; Placeholder "live_host";
                     Lit ".conf"]).
    rewrite py_format_substitute by reflexivity.
    unfold substitute. cbn [first_missing fill]. rewrite Hlive. simpl default.
    rewrite append_nil_r. reflexivity. }
  assert (Hs : py_format "/etc/supervisor/conf.d/%(proj_name)s.conf" e =
               Ok ("/etc/supervisor/conf.d/"
                     ++ default (last_component cwd) (PROJECT_NAME conf)
                     ++ ".conf")).
  { change "/etc/supervisor/conf.d/%(proj_name)s.conf"
      with (unparse [Lit "/etc/supervisor/conf.d/"; Placeholder "proj_name";
                     Lit ".conf"]).
    rewrite py_format_substitute by reflexivity.
    unfold substitute. cbn [first_missing fill]. rewrite Hname. simpl default.
    rewrite append_nil_r. reflexivity. }
  unfold templates. cbn [inject_all inject].
  rewrite Hn, Hs.
  reflexivity.
Qed.

(** ** What the tasks leave alone *)

Lemma confined_weaken {A : Type} (P Q : string -> Prop) (m : M A) :
  (forall q, P q -> Q q) -> confined P m -> confined Q m.
Proof.
  intros HPQ Hm w. destruct (Hm w) as (Hl & Hh & Ho & Hr & Hfs).
  repeat split; try assumption.
  intros q Hq. apply Hfs. intros HP. apply Hq, HPQ, HP.
Qed.

Lemma confined_bind {A B : Type} (P : string -> Prop) (m : M A) (k : A -> M B) :
  confined P m -> (forall a, confined P (k a)) -> confined P (bind m k).
Proof.
  intros Hm Hk w. unfold bind.
  destruct (Hm w) as (Hl & Hh & Ho & Hr & Hfs).
  destruct (m w) as [[a|x] w1]; simpl in *.
  - destruct (Hk a w1) as (Hl' & Hh' & Ho' & Hr' & Hfs').
    repeat split; try congruence.
    intros q Hq. rewrite (Hfs' q Hq). apply Hfs, Hq.
  - repeat split; assumption.
Qed.

Lemma confined_pure {A : Type} (P : string -> Prop) (f : world -> outcome A) :
  confined P (fun w => (f w, w)).
Proof. intros w. repeat split; reflexivity. Qed.

Lemma confined_emit (P : string -> Prop) (ev : event) : confined P (emit ev).
Proof. intros w. repeat split; reflexivity. Qed.

Lemma confined_attempt (P : string -> Prop) (ev : event) : confined P (attempt ev).
Proof.
  apply confined_bind; [apply confined_emit|]. intros _ w.
  destruct (refuses w ev); repeat split; reflexivity.
Qed.

Lemma confined_sudo (P : string -> Prop) (cmd : string) : confined P (sudo cmd).
Proof.
  apply confined_bind; [apply confined_attempt|]. intros _.
  apply (confined_pure P (fun w => Ok (shell_output (remote_fs w) cmd))).
Qed.

Lemma confined_exists (P : string -> Prop) (path : string) : confined P (exists_ path).
Proof.
  apply confined_bind; [apply confined_emit|]. intros _.
  apply (confined_pure P
           (fun w => Ok (match remote_fs w !! path with
                         | Some _ => true
                         | None => false
                         end))).
Qed.

Lemma confined_read_local (P : string -> Prop) (path : string) :
  confined P (read_local path).
Proof.
  intros w. unfold read_local. destruct (local_fs w !! path); repeat split; reflexivity.
Qed.

Lemma confined_getattr (P : string -> Prop) (name : string) :
  confined P (getattr name).
Proof.
  intros w. unfold getattr. destruct (env w !! name); repeat split; reflexivity.
Qed.

Lemma confined_upload_template (filename destination : string) :
  confined (eq destination) (upload_template filename destination).
Proof.
  apply confined_bind; [apply confined_read_local|]. intros raw.
  apply confined_bind; [apply (confined_pure _ (fun w => Ok (env w)))|]. intros e.
  apply confined_bind; [apply (confined_pure _ (fun _ => py_format raw e))|].
  intros text.
  apply confined_bind; [apply confined_attempt|]. intros _ w.
  repeat split; try reflexivity.
  intros q Hq. simpl. apply lookup_insert_ne. exact Hq.
Qed.

Lemma confined_gather
      (registry : list (string * dict))
      (db_pass : gmap string string -> outcome string * gmap string string)
      (name : string) :
  confined (fun _ => False) (gather registry db_pass name).
Proof.
  unfold gather.
  apply confined_bind;
    [apply (confined_pure _ (fun w => resolve registry (env w) name))|].
  intros t.
  apply confined_bind; [apply confined_exists|]. intros present.
  apply confined_bind.
  { destruct present; [apply confined_sudo | apply (confined_pure _ (fun _ => Ok ""))]. }
  intros rd.
  apply confined_bind; [apply confined_read_local|]. intros raw.
  apply confined_bind.
  { destruct (contains "%(db_pass)s" raw);
      [|apply (confined_pure _ (fun _ => Ok tt))].
    apply confined_bind.
    - apply confined_bind; [apply confined_emit|]. intros _ w.
      destruct (db_pass (env w)); repeat split; reflexivity.
    - intros v w. repeat split; reflexivity. }
  intros _.
  apply confined_bind; [apply (confined_pure _ (fun w => Ok (env w)))|]. intros e.
  apply confined_bind; [apply (confined_pure _ (fun _ => py_format raw e))|].
  intros ld. apply (confined_pure _ (fun _ => Ok (Gathered t rd ld))).
Qed.

Lemma confined_act (g : gathered) :
  confined (eq (remote_path (template g))) (act g).
Proof.
  unfold act.
  destruct (String.eqb (clean (remote_data g)) (clean (local_data g)));
    [apply (confined_pure _ (fun _ => Ok VNone))|].
  apply confined_bind; [apply confined_upload_template|]. intros _.
  apply confined_bind.
  { destruct (truthy (owner (template g)));
      [apply confined_sudo | apply (confined_pure _ (fun _ => Ok ""))]. }
  intros _. apply confined_bind.
  { destruct (truthy (mode (template g)));
      [apply confined_sudo | apply (confined_pure _ (fun _ => Ok ""))]. }
  intros _. apply confined_bind.
  { destruct (truthy (reload_command (template g)));
      [apply confined_sudo | apply (confined_pure _ (fun _ => Ok ""))]. }
  intros _. apply (confined_pure _ (fun _ => Ok VNone)).
Qed.

(** ** What a template call asks of the host *)

Lemma asks_at_bind {A B : Type} (Q : event -> Prop) (m : M A) (k : A -> M B)
      (w : world) :
  asks_at Q m w ->
  (forall a w1, m w = (Ok a, w1) -> asks_at Q (k a) w1) ->
  asks_at Q (bind m k) w.
Proof.
  intros (l1 & Ht & HQ) Hk. unfold asks_at, bind.
  destruct (m w) as [[a|x] w1] eqn:E; simpl in *.
  - destruct (Hk a w1 eq_refl) as (l2 & Ht2 & HQ2).
    exists (l1 ++ l2)%list. split.
    + rewrite Ht2, Ht, app_assoc. reflexivity.
    + apply Forall_app. split; assumption.
  - exists l1. split; assumption.
Qed.

Lemma asks_at_silent {A : Type} (Q : event -> Prop) (m : M A) (w : world) :
  trace (snd (m w)) = trace w -> asks_at Q m w.
Proof.
  intros H. exists []. split; [rewrite app_nil_r; exact H | constructor].
Qed.

Lemma asks_at_emit (Q : event -> Prop) (ev : event) (w : world) :
  Q ev -> asks_at Q (emit ev) w.
Proof.
  intros H. exists [ev]. split; [reflexivity | constructor; [exact H | constructor]].
Qed.

Lemma asks_at_attempt (Q : event -> Prop) (ev : event) (w : world) :
  Q ev -> asks_at Q (attempt ev) w.
Proof.
  intros H. apply asks_at_bind; [apply asks_at_emit, H|].
  intros _ w1 _. apply asks_at_silent.
  destruct (refuses w1 ev); reflexivity.
Qed.

Lemma asks_at_sudo (Q : event -> Prop) (cmd : string) (w : world) :
  Q (ESudo cmd) -> asks_at Q (sudo cmd) w.
Proof.
  intros H. apply asks_at_bind; [apply asks_at_attempt, H|].
  intros _ w1 _. apply asks_at_silent. reflexivity.
Qed.

Lemma asks_at_exists (Q : event -> Prop) (path : string) (w : world) :
  Q (EExists path) -> asks_at Q (exists_ path) w.
Proof.
  intros H. apply asks_at_bind; [apply asks_at_emit, H|].
  intros _ w1 _. apply asks_at_silent. reflexivity.
Qed.

Lemma asks_at_read_local (Q : event -> Prop) (path : string) (w : world) :
  asks_at Q (read_local path) w.
Proof.
  apply asks_at_silent. unfold read_local.
  destruct (local_fs w !! path); reflexivity.
Qed.

Lemma asks_at_upload_template (Q : event -> Prop) (filename destination : string)
      (w : world) :
  (forall text, Q (EUpload destination text)) ->
  asks_at Q (upload_template filename destination) w.
Proof.
  intros H. unfold upload_template.
  apply asks_at_bind; [apply asks_at_read_local|]. intros raw w1 _.
  apply asks_at_bind; [apply asks_at_silent; reflexivity|]. intros e w2 _.
  apply asks_at_bind; [apply asks_at_silent; reflexivity|]. intros text w3 _.
  apply asks_at_bind; [apply asks_at_attempt, H|]. intros _ w4 _.
  apply asks_at_silent. reflexivity.
Qed.

Lemma asks_at_gather
      (registry : list (string * dict))
      (db_pass : gmap string string -> outcome string * gmap string string)
      (Q : event -> Prop) (name : string) (w : world) (t : resolved) :
  resolve registry (env w) name = Ok t ->
  Q (EExists (remote_path t)) ->
  Q (ESudo ("cat " ++ remote_path t)) ->
  Q EDbPass ->
  asks_at Q (gather registry db_pass name) w.
Proof.
  intros Hres Q1 Q2 Q3. unfold gather.
  apply asks_at_bind; [apply asks_at_silent; reflexivity|].
  intros t' w1 Heq. cbv beta in Heq. rewrite Hres in Heq. injection Heq as <- <-.
  apply asks_at_bind; [apply asks_at_exists, Q1|]. intros present w2 _.
  apply asks_at_bind.
  { destruct present; [apply asks_at_sudo, Q2 | apply asks_at_silent; reflexivity]. }
  intros rd w3 _.
  apply asks_at_bind; [apply asks_at_read_local|]. intros raw w4 _.
  apply asks_at_bind.
  { destruct (contains "%(db_pass)s" raw); [|apply asks_at_silent; reflexivity].
    apply asks_at_bind.
    - apply asks_at_bind; [apply asks_at_emit, Q3|]. intros _ w5 _.
      apply asks_at_silent. destruct (db_pass (env w5)); reflexivity.
    - intros v w5 _. apply asks_at_silent. reflexivity. }
  intros _ w5 _.
  apply asks_at_bind; [apply asks_at_silent; reflexivity|]. intros e w6 _.
  apply asks_at_bind; [apply asks_at_silent; reflexivity|]. intros ld w7 _.
  apply asks_at_silent. reflexivity.
Qed.

Lemma asks_at_act (Q : event -> Prop) (g : gathered) (w : world) :
  (forall text, Q (EUpload (remote_path (template g)) text)) ->
  (forall o, owner (template g) = Some o ->
             Q (ESudo ("chown " ++ o ++ " " ++ remote_path (template g)))) ->
  (forall m, mode (template g) = Some m ->
             Q (ESudo ("chmod " ++ m ++ " " ++ remote_path (template g)))) ->
  (forall c, reload_command (template g) = Some c -> Q (ESudo c)) ->
  asks_at Q (act g) w.
Proof.
  intros Hup Hown Hmod Hrel. unfold act.
  destruct (String.eqb (clean (remote_data g)) (clean (local_data g)));
    [apply asks_at_silent; reflexivity|].
  apply asks_at_bind; [apply asks_at_upload_template, Hup|]. intros _ w1 _.
  apply asks_at_bind.
  { destruct (owner (template g)) as [[|c o]|] eqn:Ho;
      [apply asks_at_silent; reflexivity | | apply asks_at_silent; reflexivity].
    apply asks_at_sudo. exact (Hown _ eq_refl). }
  intros _ w2 _. apply asks_at_bind.
  { destruct (mode (template g)) as [[|c m]|] eqn:Hm;
      [apply asks_at_silent; reflexivity | | apply asks_at_silent; reflexivity].
    apply asks_at_sudo. exact (Hmod _ eq_refl). }
  intros _ w3 _. apply asks_at_bind.
  { destruct (reload_command (template g)) as [[|c r]|] eqn:Hr;
      [apply asks_at_silent; reflexivity | | apply asks_at_silent; reflexivity].
    apply asks_at_sudo. exact (Hrel _ eq_refl). }
  intros _ w4 _. apply asks_at_silent. reflexivity.
Qed.

(** X7. Whatever one call of [upload_template_and_reload] asks of the host,
    however the call ends, is one of the operations of lines 146-164 on the
    descriptor of that name: [exists] on its remote path, [sudo("cat " +
    remote_path)], the call of [db_pass], the upload to its remote path,
    [sudo("chown <owner> <remote_path>")] and [sudo("chmod <mode>
    <remote_path>")] for the owner and the mode the descriptor gives, and
    its own reload command.  No other path and no other command appears. *)
Theorem sync_asks_only_for_its_descriptor
        (registry : list (string * dict))
        (db_pass : gmap string string -> outcome string * gmap string string)
        (name : string) (w : world) (t : resolved) :
  resolve registry (env w) name = Ok t ->
  exists asked,
    trace (snd (upload_template_and_reload registry db_pass name w)) =
      (trace w ++ asked)%list /\
    Forall (fun ev =>
              ev = EExists (remote_path t) \/
              ev = ESudo ("cat " ++ remote_path t) \/
              ev = EDbPass \/
              (exists text, ev = EUpload (remote_path t) text) \/
              (exists o, owner t = Some o /\
                         ev = ESudo ("chown " ++ o ++ " " ++ remote_path t)) \/
              (exists m, mode t = Some m /\
                         ev = ESudo ("chmod " ++ m ++ " " ++ remote_path t)) \/
              (exists c, reload_command t = Some c /\ ev = ESudo c))
           asked.
Proof.
  intros Hres.
  apply (asks_at_bind _ (gather registry db_pass name) act w).
  - apply (asks_at_gather registry db_pass _ name w t Hres); tauto.
  - intros g w1 Hg.
    destruct (gather_inv _ _ _ _ _ _ Hg) as (raw & Hres' & _).
    rewrite Hres in Hres'. injection Hres' as ->.
    apply asks_at_act.
    + intros text. right. right. right. left. exists text. reflexivity.
    + intros o Ho. right. right. right. right. left. exists o. split; [exact Ho | reflexivity].
    + intros m Hm. right. right. right. right. right. left.
      exists m. split; [exact Hm | reflexivity].
    + intros c Hc. right. right. right. right. right. right.
      exists c. split; [exact Hc | reflexivity].
Qed.

Lemma confined_sync
      (registry : list (string * dict))
      (db_pass : gmap string string -> outcome string * gmap string string)
      (name : string) :
  confined (fun _ => True) (upload_template_and_reload registry db_pass name).
Proof.
  apply confined_bind.
  - apply (confined_weaken (fun _ => False)); [tauto | apply confined_gather].
  - intros g. apply (confined_weaken (eq (remote_path (template g))));
      [tauto | apply confined_act].
Qed.

Lemma confined_for_each (names : list string) (body : string -> M value) :
  (forall n, confined (fun _ => True) (body n)) ->
  confined (fun _ => True) (for_each names body).
Proof.
  intros Hb. induction names as [|n names IH].
  - apply (confined_pure _ (fun _ => Ok tt)).
  - apply confined_bind; [apply Hb | intros _; exact IH].
Qed.

(** X8. A deploy in which [get_templates] or one of the template calls
    raises ends there, with that exception and in the state the template
    calls left: no git command has been asked, and the checkout is the one
    from before the deploy. *)
Theorem deploy_stops_before_git
        (registry : list (string * dict))
        (db_pass : gmap string string -> outcome string * gmap string string)
        (w : world) :
  (forall x, inject_all (env w) registry = Raise x ->
             deploy registry db_pass w = (Raise x, w)) /\
  (forall injected x ws,
     inject_all (env w) registry = Ok injected ->
     for_each (map fst registry) (upload_template_and_reload registry db_pass) w
       = (Raise x, ws) ->
     deploy registry db_pass w = (Raise x, ws) /\
     repo_head ws = repo_head w /\
     repo_origin ws = repo_origin w /\
     local_fs ws = local_fs w).
Proof.
  split.
  - intros x Hx. unfold deploy, get_templates. apply bind_raise.
    rewrite Hx. reflexivity.
  - intros inj x ws Hinj Hf.
    split.
    + unfold deploy.
      rewrite (bind_ok _ _ w w inj) by (unfold get_templates; rewrite Hinj; reflexivity).
      rewrite (inject_all_names _ _ _ Hinj).
      apply bind_raise, Hf.
    + destruct (confined_for_each (map fst registry)
                  (upload_template_and_reload registry db_pass)
                  (confined_sync registry db_pass) w) as (Hl & Hh & Ho & _).
      rewrite Hf in Hl, Hh, Ho. simpl in Hl, Hh, Ho.
      repeat split; assumption.
Qed.


(** ** Lookups that fail *)

Lemma dict_get_absent {V : Type} (d : list (string * V)) (k : string) :
  ~ In k (map fst d) -> dict_get d k = None.
Proof.
  induction d as [|[k' v] d IH]; intros H; [reflexivity|].
  simpl. destruct (String.eqb k' k) eqn:He.
  - apply String.eqb_eq in He. exfalso. apply H. left. exact He.
  - apply IH. intros Hin. apply H. right. exact Hin.
Qed.

Lemma sync_unresolved
      (registry : list (string * dict))
      (db_pass : gmap string string -> outcome string * gmap string string)
      (name : string) (w : world) (x : exn) :
  resolve registry (env w) name = Raise x ->
  upload_template_and_reload registry db_pass name w = (Raise x, w).
Proof.
  intros H. unfold upload_template_and_reload. apply bind_raise.
  unfold gather. apply bind_raise. rewrite H. reflexivity.
Qed.

(** X10. A call that cannot find what it needs stops before anything is
    changed: for a name that is not in the registry it raises [KeyError]
    with that name, and for a descriptor without [local_path] a [KeyError]
    for "local_path", both without asking anything of the host; when the
    local template file does not exist it raises [IOError] after the reads
    of the remote file, before any upload. *)
Theorem sync_stops_without_descriptor_or_file
        (registry : list (string * dict))
        (db_pass : gmap string string -> outcome string * gmap string string)
        (name : string) (w : world) (injected : list (string * dict)) :
  inject_all (env w) registry = Ok injected ->
  (~ In name (map fst registry) ->
   upload_template_and_reload registry db_pass name w = (Raise (KeyError name), w)) /\
  (forall d,
     dict_get injected name = Some d ->
     dict_get d "local_path" = None ->
     upload_template_and_reload registry db_pass name w =
     (Raise (KeyError "local_path"), w)) /\
  (forall t,
     resolve registry (env w) name = Ok t ->
     refuses w (ESudo (cat_command (remote_path t))) = false ->
     local_fs w !! local_path t = None ->
     upload_template_and_reload registry db_pass name w =
     (Raise (IOError (local_path t)),
      with_trace w (trace w ++ probe_ops (remote_fs w) (remote_path t)))).
Proof.
  intros Hinj. split; [|split].
  - intros Hname. apply sync_unresolved.
    unfold resolve, getitem. rewrite Hinj.
    rewrite dict_get_absent; [reflexivity|].
    rewrite (inject_all_names _ _ _ Hinj). exact Hname.
  - intros d Hd Hlp. apply sync_unresolved.
    unfold resolve, getitem. rewrite Hinj, Hd, Hlp. reflexivity.
  - intros t Hres Hcat Hraw.
    unfold upload_template_and_reload. apply bind_raise.
    unfold gather, probe_ops.
    unfold bind at 1. rewrite Hres.
    unfold exists_, emit, bind at 2. unfold bind at 1. simpl.
    assert (Hrd :
      (if match remote_fs w !! remote_path t with Some _ => true | None => false end
       then sudo (cat_command (remote_path t)) else ret "")
        (with_trace w (trace w ++ [EExists (remote_path t)])) =
      (Ok (default "" (remote_fs w !! remote_path t)),
       with_trace w (trace w ++ EExists (remote_path t) ::
                       match remote_fs w !! remote_path t with
                       | Some _ => [ESudo (cat_command (remote_path t))]
                       | None => []
                       end))).
    { destruct (remote_fs w !! remote_path t) as [c|] eqn:Hfs.
      - unfold sudo, attempt, emit, bind. simpl. rewrite Hcat, shell_output_cat.
        simpl. rewrite Hfs, <- app_assoc. reflexivity.
      - reflexivity. }
    unfold bind at 1. rewrite Hrd.
    apply bind_raise. unfold read_local. simpl. rewrite Hraw. reflexivity.
Qed.

(** ** Patterns without placeholders *)

Lemma py_format_plain (v : string) (e : gmap string string) :
  has_char "%" v = false -> py_format v e = Ok v.
Proof.
  intros H. unfold py_format.
  rewrite <- (append_nil_r v) at 1.
  rewrite (fmt_go_lit e v "" "" H). reflexivity.
Qed.

Lemma inject_plain (e : gmap string string) (d : dict) :
  plain_dict d = true -> inject e d = Ok d.
Proof.
  induction d as [|[k v] d IH]; intros H; [reflexivity|].
  simpl in H. apply andb_prop in H as [Hv Hd]. apply negb_true_iff in Hv.
  simpl. rewrite (py_format_plain _ _ Hv), (IH Hd). reflexivity.
Qed.

(** X11. A registry whose values have no '%' is returned by [get_templates]
    as it is, in every environment: such descriptors cannot fail to
    resolve.  A value that ends in a single '%' after plain text makes [%]
    raise [ValueError]; written with the '%' doubled it gives the text with
    one '%'. *)
Theorem plain_registry_resolves_to_itself
        (reg : list (string * dict)) (e : gmap string string) :
  plain_registry reg = true ->
  inject_all e reg = Ok reg /\
  (forall v, has_char "%" v = false ->
     py_format (v ++ "%") e = Raise (ValueError "incomplete format") /\
     py_format (v ++ "%%") e = Ok (v ++ "%")).
Proof.
  intros H. split.
  - induction reg as [|[n d] reg IH]; [reflexivity|].
    simpl in H. apply andb_prop in H as [Hd Hr].
    simpl. rewrite (inject_plain _ _ Hd), (IH Hr). reflexivity.
  - intros v Hv. unfold py_format.
    rewrite !(fmt_go_lit e v _ "" Hv). split; reflexivity.
Qed.

(** ** The normalisation is idempotent *)

Lemma drop_while_head (p : ascii -> bool) (l r : list ascii) (c : ascii) :
  drop_while p l = c :: r -> p c = false.
Proof.
  induction l as [|a l IH]; [discriminate|].
  simpl. destruct (p a) eqn:Ha; [exact IH|].
  intros H. injection H as <- _. exact Ha.
Qed.

Lemma drop_while_fixed (p : ascii -> bool) (l : list ascii) :
  match l with [] => True | c :: _ => p c = false end ->
  drop_while p l = l.
Proof. destruct l as [|c l]; [reflexivity|]. simpl. intros ->. reflexivity. Qed.

Lemma drop_while_suffix (p : ascii -> bool) (l : list ascii) :
  exists pre, l = (pre ++ drop_while p l)%list.
Proof.
  induction l as [|a l [pre IH]]; [exists []; reflexivity|].
  simpl. destruct (p a).
  - exists (a :: pre). simpl. rewrite <- IH. reflexivity.
  - exists []. reflexivity.
Qed.

Lemma drop_while_In (p : ascii -> bool) (l : list ascii) (c : ascii) :
  In c (drop_while p l) -> In c l.
Proof.
  destruct (drop_while_suffix p l) as [pre H]. intros Hin.
  rewrite H. apply in_or_app. right. exact Hin.
Qed.

Lemma trim_In (l : list ascii) (c : ascii) : In c (trim l) -> In c l.
Proof.
  unfold trim. intros H. apply in_rev in H.
  apply drop_while_In in H. apply in_rev in H.
  apply drop_while_In in H. exact H.
Qed.

Lemma trim_idempotent (l : list ascii) : trim (trim l) = trim l.
Proof.
  unfold trim.
  set (y := drop_while isspace l).
  set (z := drop_while isspace (rev y)).
  assert (Hz : drop_while isspace z = z).
  { apply drop_while_fixed. destruct z as [|c z'] eqn:Hz; [exact I|].
    apply (drop_while_head _ _ _ _ Hz). }
  assert (Hr : drop_while isspace (rev z) = rev z).
  { apply drop_while_fixed. destruct (rev z) as [|c r] eqn:Hrev; [exact I|].
    destruct (drop_while_suffix isspace (rev y)) as [pre Hpre]. fold z in Hpre.
    apply (f_equal (@rev ascii)) in Hpre.
    rewrite rev_involutive, rev_app_distr, Hrev in Hpre.
    apply (drop_while_head isspace l (r ++ rev pre) c). exact Hpre. }
  rewrite Hr, rev_involutive, Hz. reflexivity.
Qed.

Lemma filter_fixed (f : ascii -> bool) (l : list ascii) :
  (forall c, In c l -> f c = true) -> List.filter f l = l.
Proof.
  induction l as [|a l IH]; intros H; [reflexivity|].
  simpl. rewrite (H a) by (left; reflexivity).
  rewrite IH by (intros c Hc; apply H; right; exact Hc). reflexivity.
Qed.

(** X12. The normalisation of line 155 is idempotent, and what it returns
    holds no line feed and no carriage return. *)
Theorem clean_idempotent (s : string) :
  clean (clean s) = clean s /\
  (forall c, In c (list_ascii_of_string (clean s)) -> c <> LF /\ c <> CR).
Proof.
  assert (Hin : forall c, In c (list_ascii_of_string (normalize s)) ->
                          negb (is_linebreak c) = true).
  { intros c. unfold normalize.
    rewrite list_ascii_of_string_of_list_ascii. intros H.
    apply trim_In in H. apply List.filter_In in H as [_ H]. exact H. }
  split.
  - rewrite !clean_normalize. unfold normalize at 1.
    rewrite (filter_fixed _ _ Hin).
    unfold normalize. rewrite list_ascii_of_string_of_list_ascii, trim_idempotent.
    reflexivity.
  - intros c Hc. rewrite clean_normalize in Hc. apply Hin in Hc.
    apply negb_true_iff in Hc. unfold is_linebreak in Hc.
    apply orb_false_elim in Hc as [H1 H2].
    split; intros ->; [rewrite Ascii.eqb_refl in H1 | rewrite Ascii.eqb_refl in H2];
      discriminate.
Qed.

(** ** What a completed call has achieved *)

(** X13. After a call of [upload_template_and_reload] that completes, the
    file at the remote path agrees with the rendered local template up to
    the normalisation; when the call found them different, the file holds
    exactly the rendered text. *)
Theorem sync_establishes_agreement
        (registry : list (string * dict))
        (db_pass : gmap string string -> outcome string * gmap string string)
        (name : string) (w w' : world) (r : value) :
  upload_template_and_reload registry db_pass name w = (Ok r, w') ->
  exists g w1,
    gather registry db_pass name w = (Ok g, w1) /\
    resolve registry (env w) name = Ok (template g) /\
    clean (default "" (remote_fs w' !! remote_path (template g)))
      = clean (local_data g) /\
    (clean (default "" (remote_fs w !! remote_path (template g)))
       <> clean (local_data g) ->
     remote_fs w' !! remote_path (template g) = Some (local_data g)).
Proof.
  intros Hs.
  destruct (sync_inv _ _ _ _ _ _ Hs) as (_ & g & w1 & Hg & Hrd & Hw').
  destruct (gather_inv _ _ _ _ _ _ Hg) as (raw & Hres & _).
  destruct (gather_frame _ _ _ _ _ _ Hg) as (_ & Hr & _).
  exists g, w1. split; [exact Hg|]. split; [exact Hres|].
  destruct (String.eqb (clean (remote_data g)) (clean (local_data g))) eqn:Hc.
  - subst w'. apply String.eqb_eq in Hc. rewrite Hr, <- Hrd.
    split; [exact Hc | intros Hne; contradiction].
  - destruct Hw' as [_ Hup]. rewrite Hup. split; [reflexivity|].
    intros _. reflexivity.
Qed.

(** ** Attributes of a configured environment *)

Lemma restart_no_attribute_error (w w' : world) (k : string) :
  env w !! "proj_name" <> None ->
  restart w <> (Raise (AttributeError k), w').
Proof.
  intros Hn. unfold restart, exists_, sudo, attempt, getattr, emit, ret, bind.
  simpl. destruct (remote_fs w !! "/var/run/nginx.pid"); simpl.
  - destruct (refuses w _); discriminate.
  - destruct (env w !! "proj_name"); [|contradiction]. simpl.
    destruct (refuses w _); discriminate.
Qed.

(** X14. In the environment of lines 30-40, [install], [create], [restart]
    and [rollback] never raise [AttributeError]: every attribute of [env]
    they read has been assigned. *)
Theorem configured_tasks_find_their_attributes
        (hosts_text : list string -> string) (conf : settings)
        (login cwd : string) (base : gmap string string) (w w' : world)
        (k : string) :
  env w = configure hosts_text conf login cwd base ->
  install w <> (Raise (AttributeError k), w') /\
  create w <> (Raise (AttributeError k), w') /\
  restart w <> (Raise (AttributeError k), w') /\
  rollback w <> (Raise (AttributeError k), w').
Proof.
  intros He.
  destruct (configure_lookups hosts_text conf login cwd base)
    as (Hlive & Hname & Hpath & Hloc & Hrepo).
  rewrite <- He in Hlive, Hname, Hpath, Hloc, Hrepo.
  split; [|split; [|split]].
  - unfold install, getattr. unfold bind at 1. rewrite Hloc.
    unfold apt, sudo, run, attempt, emit, ret, bind. simpl.
    repeat (match goal with
            | |- context [if ?b then _ else _] => destruct b; simpl
            end); discriminate.
  - rewrite (create_run w _ _ Hrepo Hpath).
    destruct (refuses w _); discriminate.
  - apply restart_no_attribute_error. congruence.
  - unfold rollback, getattr. unfold bind at 1. rewrite Hpath.
    unfold bind at 1.
    destruct (run _ _ w) as [[o|x] w1] eqn:Hrun.
    + apply run_inv in Hrun as [_ ->].
      unfold bind, ret.
      match goal with
      | |- context [restart ?x] =>
          pose proof (restart_no_attribute_error x) as Hra;
          destruct (restart x) as [[v|ex] wx]
      end; [discriminate|].
      intros Heq. injection Heq as -> ->.
      apply (Hra w' k); [|reflexivity].
      unfold shell_effect. simpl String.eqb. cbv iota. simpl remote_fs.
      destruct (remote_fs w !! last_commit _); simpl; congruence.
    + unfold run, attempt, emit, bind in Hrun. simpl in Hrun.
      destruct (refuses w _); [|discriminate Hrun].
      injection Hrun as <- <-. discriminate.
Qed.

(** ** Concrete runs of the other tasks *)

Lemma remove_only_existing_witness :
  remove templates drifted_host =
    (Ok VNone,
     with_trace drifted_host
       [EExists "/etc/nginx/sites-enabled/example.org.conf";
        ESudo "rm /etc/nginx/sites-enabled/example.org.conf";
        EExists "/etc/supervisor/conf.d/blog.conf"]) /\
  exists asked,
    trace (with_trace drifted_host
             [EExists "/etc/nginx/sites-enabled/example.org.conf";
              ESudo "rm /etc/nginx/sites-enabled/example.org.conf";
              EExists "/etc/supervisor/conf.d/blog.conf"]) =
      (trace drifted_host ++ asked)%list /\
    forall p,
      In (ESudo ("rm " ++ p)) asked <->
      In p ["/etc/nginx/sites-enabled/example.org.conf";
            "/etc/supervisor/conf.d/blog.conf"] /\
      remote_fs drifted_host !! p <> None.
Proof.
  assert (H : remove templates drifted_host =
    (Ok VNone,
     with_trace drifted_host
       [EExists "/etc/nginx/sites-enabled/example.org.conf";
        ESudo "rm /etc/nginx/sites-enabled/example.org.conf";
        EExists "/etc/supervisor/conf.d/blog.conf"]))
    by (vm_compute; reflexivity).
  assert (Hinj : inject_all (env drifted_host) templates =
    Ok [ ("nginx",
          [ ("local_path", "deploy/nginx.conf");
            ("remote_path", "/etc/nginx/sites-enabled/example.org.conf");
            ("reload_command", "service nginx restart") ]);
         ("supervisor",
          [ ("local_path", "deploy/supervisor.conf");
            ("remote_path", "/etc/supervisor/conf.d/blog.conf");
            ("reload_command", "supervisorctl reload") ]) ])
    by (vm_compute; reflexivity).
  split; [exact H|].
  assert (Hnd : List.NoDup
                  ["/etc/nginx/sites-enabled/example.org.conf";
                   "/etc/supervisor/conf.d/blog.conf"]).
  { constructor; [simpl; intros [Heq|[]]; discriminate Heq|].
    constructor; [intros []|constructor]. }
  destruct (remove_only_existing templates _ drifted_host _ _ Hinj Hnd H)
    as (_ & asked & Ht & _ & Hrm & _).
  exists asked. split; [exact Ht | exact Hrm].
Defined.

Lemma install_sets_locale_when_missing_witness :
  env locale_host !! "locale" = Some "en_US.UTF-8" /\
  remote_fs locale_host !! "/etc/default/locale" = Some "LANG=C" /\
  install locale_host =
    (Ok (VBool true),
     with_trace locale_host
       [ESudo "cat /etc/default/locale";
        ESudo "update-locale LC_ALL=en_US.UTF-8"; ERun "" "exit";
        ESudo "apt-get update -y -q";
        ESudo "apt-get install -y -q nginx supervisor git-core"]).
Proof.
  assert (H1 : env locale_host !! "locale" = Some "en_US.UTF-8")
    by (vm_compute; reflexivity).
  assert (H2 : remote_fs locale_host !! "/etc/default/locale" = Some "LANG=C")
    by (vm_compute; reflexivity).
  split; [exact H1|]. split; [exact H2|].
  apply (install_sets_locale_when_missing locale_host _ _ H1 H2).
  intros ev. reflexivity.
Defined.

Lemma all_runs_deploy_after_create_witness :
  install closed_host = (Ok (VBool true), snd (install closed_host)) /\
  all_ templates fixed_db_pass closed_host =
    (Raise (SystemExit
              (ERun "" "git clone git@example.org:blog.git /home/deploy/blog")),
     with_trace closed_host
       [ESudo "cat /etc/default/locale"; ESudo "apt-get update -y -q";
        ESudo "apt-get install -y -q nginx supervisor git-core";
        ERun "" "git clone git@example.org:blog.git /home/deploy/blog"]) /\
  all_ templates fixed_db_pass locale_host =
    (Ok VNone,
     snd (deploy templates fixed_db_pass
            (with_trace installed_host
               (trace installed_host ++
                [ERun "" "git clone git@example.org:blog.git /home/deploy/blog"])))).
Proof.
  assert (H : install closed_host = (Ok (VBool true), snd (install closed_host)))
    by (vm_compute; reflexivity).
  assert (H' : install locale_host = (Ok (VBool true), installed_host))
    by (vm_compute; reflexivity).
  split; [exact H|]. split.
  - destruct (all_runs_deploy_after_create templates fixed_db_pass _ _ _
                "git@example.org:blog.git" "/home/deploy/blog" H)
      as [Hrefused _]; [vm_compute; reflexivity | vm_compute; reflexivity |].
    rewrite Hrefused by (vm_compute; reflexivity).
    vm_compute. reflexivity.
  - destruct (all_runs_deploy_after_create templates fixed_db_pass _ _ _
                "git@example.org:blog.git" "/home/deploy/blog" H')
      as [_ Hok]; [vm_compute; reflexivity | vm_compute; reflexivity |].
    rewrite Hok by (vm_compute; reflexivity).
    vm_compute. reflexivity.
Defined.

Lemma last_component_of_path_witness :
  has_char "/" "fab" = false /\
  last_component "/usr/local/bin/fab" = "fab" /\
  load_conf "/usr/local/bin/fab" (Some (Some blog_settings)) = Loaded blog_settings.
Proof.
  assert (H : has_char "/" "fab" = false) by reflexivity.
  split; [exact H|].
  destruct (last_component_of_path "/usr/local/bin" "fab" H) as (H1 & _ & H3).
  split; [exact H1|].
  change "/usr/local/bin/fab" with ("/usr/local/bin" ++ String "/" "fab").
  rewrite (H3 eq_refl). reflexivity.
Defined.

Lemma startup_needs_a_host_witness :
  last_component "/usr/local/bin/fab" = "fab" /\
  load_conf "/usr/local/bin/fab" (Some (Some hostless_settings)) = Uncaught IndexError /\
  load_conf "/usr/local/bin/fab" (Some (Some blog_settings)) = Loaded blog_settings /\
  load_conf "/usr/local/bin/fab" None = Aborted.
Proof.
  assert (Hfab : last_component "/usr/local/bin/fab" = "fab") by reflexivity.
  split; [exact Hfab|].
  destruct (startup_needs_a_host "/usr/local/bin/fab"
              (Some (Some hostless_settings)) Hfab) as (_ & Hx & _).
  split.
  - apply Hx. split; [reflexivity|].
    exists hostless_settings. split; reflexivity.
  - split; reflexivity.
Defined.

Lemma sync_asks_only_for_its_descriptor_witness :
  resolve owned (env fresh_host) "app" =
    Ok (Resolved "deploy/supervisor.conf" "/srv/blog/app.conf"
                 (Some "service app reload") (Some "www-data") (Some "640")) /\
  trace (snd (upload_template_and_reload owned unbound_db_pass "app" fresh_host)) =
    [EExists "/srv/blog/app.conf";
     EUpload "/srv/blog/app.conf" "[program:blog]";
     ESudo "chown www-data /srv/blog/app.conf";
     ESudo "chmod 640 /srv/blog/app.conf";
     ESudo "service app reload"] /\
  exists asked,
    trace (snd (upload_template_and_reload owned unbound_db_pass "app" fresh_host)) =
      (trace fresh_host ++ asked)%list /\
    Forall (fun ev =>
              ev = EExists "/srv/blog/app.conf" \/
              ev = ESudo "cat /srv/blog/app.conf" \/
              ev = EDbPass \/
              (exists text, ev = EUpload "/srv/blog/app.conf" text) \/
              (exists o, Some "www-data" = Some o /\
                         ev = ESudo ("chown " ++ o ++ " " ++ "/srv/blog/app.conf")) \/
              (exists m, Some "640" = Some m /\
                         ev = ESudo ("chmod " ++ m ++ " " ++ "/srv/blog/app.conf")) \/
              (exists c, Some "service app reload" = Some c /\ ev = ESudo c))
           asked.
Proof.
  assert (Hres : resolve owned (env fresh_host) "app" =
    Ok (Resolved "deploy/supervisor.conf" "/srv/blog/app.conf"
                 (Some "service app reload") (Some "www-data") (Some "640")))
    by (vm_compute; reflexivity).
  split; [exact Hres|].
  split; [vm_compute; reflexivity|].
  exact (sync_asks_only_for_its_descriptor owned unbound_db_pass "app" fresh_host
           _ Hres).
Defined.

Lemma sync_stops_without_descriptor_or_file_witness :
  inject_all (env fresh_host) templates =
    Ok [ ("nginx",
          [ ("local_path", "deploy/nginx.conf"); ("remote_path", nginx_path);
            ("reload_command", "service nginx restart") ]);
         ("supervisor",
          [ ("local_path", "deploy/supervisor.conf");
            ("remote_path", "/etc/supervisor/conf.d/blog.conf");
            ("reload_command", "supervisorctl reload") ]) ] /\
  upload_template_and_reload templates fixed_db_pass "apache" fresh_host =
    (Raise (KeyError "apache"), fresh_host).
Proof.
  assert (H : inject_all (env fresh_host) templates =
    Ok [ ("nginx",
          [ ("local_path", "deploy/nginx.conf"); ("remote_path", nginx_path);
            ("reload_command", "service nginx restart") ]);
         ("supervisor",
          [ ("local_path", "deploy/supervisor.conf");
            ("remote_path", "/etc/supervisor/conf.d/blog.conf");
            ("reload_command", "supervisorctl reload") ]) ])
    by (vm_compute; reflexivity).
  split; [exact H|].
  destruct (sync_stops_without_descriptor_or_file templates fixed_db_pass
              "apache" fresh_host _ H) as [Hname _].
  apply Hname. simpl. intros [Heq|[Heq|[]]]; discriminate Heq.
Defined.

Lemma plain_registry_resolves_to_itself_witness :
  plain_registry motd_registry = true /\
  inject_all site_env motd_registry = Ok motd_registry.
Proof.
  assert (H : plain_registry motd_registry = true) by reflexivity.
  split; [exact H|].
  apply (plain_registry_resolves_to_itself motd_registry site_env H).
Defined.

Lemma sync_establishes_agreement_witness :
  upload_template_and_reload templates fixed_db_pass "nginx" drifted_host =
    (Ok VNone, drifted_after) /\
  exists g w1,
    gather templates fixed_db_pass "nginx" drifted_host = (Ok g, w1) /\
    resolve templates (env drifted_host) "nginx" = Ok (template g) /\
    clean (default "" (remote_fs drifted_after !! remote_path (template g)))
      = clean (local_data g) /\
    (clean (default "" (remote_fs drifted_host !! remote_path (template g)))
       <> clean (local_data g) ->
     remote_fs drifted_after !! remote_path (template g) = Some (local_data g)).
Proof.
  assert (H : upload_template_and_reload templates fixed_db_pass "nginx" drifted_host =
              (Ok VNone, drifted_after))
    by (vm_compute; reflexivity).
  split; [exact H|].
  apply (sync_establishes_agreement templates fixed_db_pass _ _ _ _ H).
Defined.

Lemma configured_tasks_find_their_attributes_witness :
  env configured_host = configure (fun _ => "") blog_settings "me" "/work/blog" ∅ /\
  env configured_host !! "proj_path" = Some "/home/deploy/blog" /\
  env configured_host !! "live_host" = Some "example.org" /\
  forall w',
    create configured_host <> (Raise (AttributeError "repo_url"), w').
Proof.
  assert (H : env configured_host =
              configure (fun _ => "") blog_settings "me" "/work/blog" ∅)
    by reflexivity.
  split; [exact H|]. split; [vm_compute; reflexivity|].
  split; [vm_compute; reflexivity|].
  intros w'.
  apply (configured_tasks_find_their_attributes _ _ _ _ _ _ w' "repo_url" H).
Defined.
